(** * Vacancy records, the JSON store and the ranking pipeline of [hh.py]

    A shallow embedding of the Python module: the class [Vacancies]
    (salary validation, construction from raw items), the class [JSONSaver]
    (append, criteria query, delete by id over one JSON file) and the four
    local functions of [user_interaction] (keyword filter, salary range
    filter, descending sort, top-N slice).

    Python values are dynamically typed, so the fields of a vacancy and the
    values of a JSON object are elements of one type [pyval].  Exceptions are
    results of an error monad. *)

From Stdlib Require Import ZArith List String Ascii Bool Lia SpecFloat.
Import ListNotations.

Open Scope string_scope.
Open Scope Z_scope.

(** ** Python values and builtins *)

Module Py.

(** The scalar values a JSON document holds once [json.load] has read it:
    [None], [bool], [int] (unbounded), [float] (IEEE 754 binary64, as the
    Standard Library's [spec_float]) and [str] (its UTF-8 bytes). *)
Inductive pyval : Type :=
| PNone
| PBool (b : bool)
| PInt (z : Z)
| PFloat (f : spec_float)
| PStr (s : string).

(** The exceptions the modelled code can raise.  [ValueError] carries the
    message of the [raise] statement; for the builtins ([int], tuple
    unpacking) the message is Python's, without the interpolated operand. *)
Inductive exn : Type :=
| ValueError (msg : string)
| TypeError
| AttributeError.

Inductive result (A : Type) : Type :=
| Ok (a : A)
| Raise (e : exn).

Arguments Ok {A} a.
Arguments Raise {A} e.

Definition bind {A B : Type} (m : result A) (k : A -> result B) : result B :=
  match m with
  | Ok a => k a
  | Raise e => Raise e
  end.

Notation "x <- m ;; k" := (bind m (fun x => k))
  (at level 61, m at next level, right associativity).

(** [for x in l: ys.append(f(x))] where [f] may raise. *)
Fixpoint mapM {A B : Type} (f : A -> result B) (l : list A) : result (list B) :=
  match l with
  | [] => Ok []
  | x :: xs => y <- f x ;; ys <- mapM f xs ;; Ok (y :: ys)
  end.

(** [for x in l: if p(x): ys.append(x)] where the test may raise. *)
Fixpoint filterM {A : Type} (p : A -> result bool) (l : list A) : result (list A) :=
  match l with
  | [] => Ok []
  | x :: xs =>
      b <- p x ;; ys <- filterM p xs ;; Ok (if b then x :: ys else ys)
  end.

(** *** Numbers

    [bool], [int] and [float] compare with each other by value, exactly
    (an [int] is never rounded to a [float] first).  A number is read as
    NaN, an infinity, or the dyadic rational [m * 2^e]. *)
Inductive xnum : Type :=
| XNan
| XInf (neg : bool)
| XFin (m e : Z).

Definition xnum_of_float (f : spec_float) : xnum :=
  match f with
  | S754_zero _ => XFin 0 0
  | S754_infinity s => XInf s
  | S754_nan => XNan
  | S754_finite s m e => XFin (if s then Z.neg m else Z.pos m) e
  end.

Definition num_of (v : pyval) : option xnum :=
  match v with
  | PBool b => Some (XFin (Z.b2z b) 0)
  | PInt z => Some (XFin z 0)
  | PFloat f => Some (xnum_of_float f)
  | PNone | PStr _ => None
  end.

(** Three-way comparison of two numbers; [None] when a NaN is involved
    (then [<], [<=] and [==] are all false). *)
Definition xcompare (a b : xnum) : option comparison :=
  match a, b with
  | XNan, _ | _, XNan => None
  | XInf s1, XInf s2 => Some (if s1 then if s2 then Eq else Lt
                              else if s2 then Gt else Eq)
  | XInf s, XFin _ _ => Some (if s then Lt else Gt)
  | XFin _ _, XInf s => Some (if s then Gt else Lt)
  | XFin m1 e1, XFin m2 e2 =>
      let e := Z.min e1 e2 in
      Some (m1 * 2 ^ (e1 - e) ?= m2 * 2 ^ (e2 - e))
  end.

Definition xlt (a b : xnum) : bool :=
  match xcompare a b with Some Lt => true | _ => false end.

Definition xeq (a b : xnum) : bool :=
  match xcompare a b with Some Eq => true | _ => false end.

(** [isinstance(v, int)]: [bool] is a subclass of [int]. *)
Definition isinstance_int (v : pyval) : bool :=
  match v with
  | PBool _ | PInt _ => true
  | _ => false
  end.

(** [isinstance(v, (int, float))]. *)
Definition isinstance_int_float (v : pyval) : bool :=
  match v with
  | PBool _ | PInt _ | PFloat _ => true
  | _ => false
  end.

(** The integer an [int] instance stands for ([True] is 1). *)
Definition int_value (v : pyval) : option Z :=
  match v with
  | PBool b => Some (Z.b2z b)
  | PInt z => Some z
  | _ => None
  end.

(** *** Equality and order

    [a == b]: numbers by value across the three numeric types, strings
    by content, [None] only with [None]; values of unrelated types are
    unequal and the comparison never raises.  [a != b] is its negation. *)
Definition py_eq (a b : pyval) : bool :=
  match a, b with
  | PNone, PNone => true
  | PStr s, PStr t => String.eqb s t
  | _, _ =>
      match num_of a, num_of b with
      | Some x, Some y => xeq x y
      | _, _ => false
      end
  end.

Definition py_ne (a b : pyval) : bool := negb (py_eq a b).

(** [a < b]: defined between numbers and between strings (code point
    order, which on UTF-8 is byte order); anything else, [None < None]
    included, raises [TypeError]. *)
Definition py_lt (a b : pyval) : result bool :=
  match a, b with
  | PStr s, PStr t => Ok (String.ltb s t)
  | _, _ =>
      match num_of a, num_of b with
      | Some x, Some y => Ok (xlt x y)
      | _, _ => Raise TypeError
      end
  end.

Definition xle (a b : xnum) : bool :=
  match xcompare a b with Some Lt | Some Eq => true | _ => false end.

(** [a <= b], defined where [<] is. *)
Definition py_le (a b : pyval) : result bool :=
  match a, b with
  | PStr s, PStr t => Ok (String.leb s t)
  | _, _ =>
      match num_of a, num_of b with
      | Some x, Some y => Ok (xle x y)
      | _, _ => Raise TypeError
      end
  end.

(** [a > b] and [a >= b]: on numbers and on strings these are [b < a]
    and [b <= a]. *)
Definition py_gt (a b : pyval) : result bool := py_lt b a.
Definition py_ge (a b : pyval) : result bool := py_le b a.

(** *** Dictionaries

    A [dict] with string keys, in insertion order. *)
Definition dict : Type := list (string * pyval).

Fixpoint lookup (d : dict) (k : string) : option pyval :=
  match d with
  | [] => None
  | (k', v) :: r => if String.eqb k' k then Some v else lookup r k
  end.

(** [d.get(k, default)] *)
Definition get_default (d : dict) (k : string) (default : pyval) : pyval :=
  match lookup d k with
  | Some v => v
  | None => default
  end.

(** [d.get(k)] *)
Definition get (d : dict) (k : string) : pyval := get_default d k PNone.

(** *** Strings *)

(** [sub in s] for two strings: [sub] occurs in [s] as a contiguous run. *)
Fixpoint str_contains (sub s : string) : bool :=
  match s with
  | EmptyString => String.prefix sub EmptyString
  | String _ s' => String.prefix sub s || str_contains sub s'
  end.

(** [s.split(sep)] for a one-character separator: never empty, and one
    part more than there are separators. *)
Fixpoint split (sep : ascii) (s : string) : list string :=
  match s with
  | EmptyString => [EmptyString]
  | String c r =>
      if Ascii.eqb c sep then EmptyString :: split sep r
      else match split sep r with
           | h :: t => String c h :: t
           | [] => [String c EmptyString]
           end
  end.

(** The white space [int] skips around a literal: TAB to CR, and SPACE. *)
Definition is_space (c : ascii) : bool :=
  let n := N_of_ascii c in
  ((9 <=? n) && (n <=? 13) || (n =? 32))%N.

Fixpoint lstrip (s : string) : string :=
  match s with
  | String c r => if is_space c then lstrip r else s
  | EmptyString => EmptyString
  end.

(** Drops trailing white space: a character stays when something that is
    not white space follows it, or when it is not white space itself. *)
Fixpoint rstrip (s : string) : string :=
  match s with
  | EmptyString => EmptyString
  | String c r =>
      match rstrip r with
      | EmptyString => if is_space c then EmptyString else String c EmptyString
      | r' => String c r'
      end
  end.

Definition strip (s : string) : string := rstrip (lstrip s).

Definition digit_of (c : ascii) : option Z :=
  let n := N_of_ascii c in
  if ((48 <=? n) && (n <=? 57))%N then Some (Z.of_N n - 48) else None.

(** The digits of a decimal literal, left to right: single underscores
    may separate digits, and the literal starts and ends with a digit.
    [after_digit] says whether the previous character was a digit. *)
Fixpoint digits (acc : Z) (after_digit : bool) (s : string) : option Z :=
  match s with
  | EmptyString => if after_digit then Some acc else None
  | String c r =>
      match digit_of c with
      | Some d => digits (10 * acc + d) true r
      | None =>
          if Ascii.eqb c "_" && after_digit then digits acc false r else None
      end
  end.

Definition invalid_literal : exn :=
  ValueError "invalid literal for int() with base 10".

(** The unsigned part of an [int] literal. *)
Definition int_digits (s : string) : result Z :=
  match digits 0 false s with
  | Some n => Ok n
  | None => Raise invalid_literal
  end.

(** *** Digits and spaces of other scripts

    Before it reads a literal, [int] turns every character beyond ASCII
    into ASCII: a space into [" "], a decimal digit into the ASCII digit of
    its value, and stops with ["?"] at anything else.  The two tables are
    those of Unicode 14.0, which Python 3.11 carries; a [str] is its UTF-8
    bytes here, so the characters are decoded first. *)

(** The white space beyond ASCII. *)
Definition unicode_spaces : list N :=
  [0x85; 0xa0; 0x1680; 0x2000; 0x2001; 0x2002; 0x2003; 0x2004; 0x2005;
   0x2006; 0x2007; 0x2008; 0x2009; 0x200a; 0x2028; 0x2029; 0x202f; 0x205f;
   0x3000]%N.

(** The code points of the digit zero of every script but ASCII; the
    nine that follow each are its digits one to nine. *)
Definition decimal_zeros : list N :=
  [0x660; 0x6f0; 0x7c0; 0x966; 0x9e6; 0xa66; 0xae6; 0xb66; 0xbe6; 0xc66;
   0xce6; 0xd66; 0xde6; 0xe50; 0xed0; 0xf20; 0x1040; 0x1090; 0x17e0;
   0x1810; 0x1946; 0x19d0; 0x1a80; 0x1a90; 0x1b50; 0x1bb0; 0x1c40; 0x1c50;
   0xa620; 0xa8d0; 0xa900; 0xa9d0; 0xa9f0; 0xaa50; 0xabf0; 0xff10; 0x104a0;
   0x10d30; 0x11066; 0x110f0; 0x11136; 0x111d0; 0x112f0; 0x11450; 0x114d0;
   0x11650; 0x116c0; 0x11730; 0x118e0; 0x11950; 0x11c50; 0x11d50; 0x11da0;
   0x16a60; 0x16ac0; 0x16b50; 0x1d7ce; 0x1d7d8; 0x1d7e2; 0x1d7ec; 0x1d7f6;
   0x1e140; 0x1e2f0; 0x1e950; 0x1fbf0]%N.

Definition is_unicode_space (cp : N) : bool := existsb (N.eqb cp) unicode_spaces.

Definition to_decimal (cp : N) : option N :=
  match find (fun zero => (zero <=? cp) && (cp <? zero + 10))%N decimal_zeros with
  | Some zero => Some (cp - zero)%N
  | None => None
  end.

(** A continuation byte of UTF-8 gives six bits. *)
Definition continuation (c : ascii) : option N :=
  let n := N_of_ascii c in
  if ((128 <=? n) && (n <? 192))%N then Some (n - 128)%N else None.

(** What a character beyond ASCII becomes, in front of the rest. *)
Definition to_ascii_char (cp : N) (rest : string) : string :=
  if is_unicode_space cp then String " " rest
  else match to_decimal cp with
       | Some d => String (ascii_of_N (48 + d)) rest
       | None => "?"
       end.

Fixpoint to_ascii (s : string) : string :=
  match s with
  | EmptyString => EmptyString
  | String b r =>
      let n := N_of_ascii b in
      if (n <? 127)%N then String b (to_ascii r)
      else if ((194 <=? n) && (n <? 224))%N then
        match r with
        | String c1 r1 =>
            match continuation c1 with
            | Some x1 => to_ascii_char ((n - 192) * 64 + x1) (to_ascii r1)
            | None => "?"
            end
        | _ => "?"
        end
      else if ((224 <=? n) && (n <? 240))%N then
        match r with
        | String c1 (String c2 r2) =>
            match continuation c1, continuation c2 with
            | Some x1, Some x2 =>
                to_ascii_char ((n - 224) * 4096 + x1 * 64 + x2) (to_ascii r2)
            | _, _ => "?"
            end
        | _ => "?"
        end
      else if ((240 <=? n) && (n <? 245))%N then
        match r with
        | String c1 (String c2 (String c3 r3)) =>
            match continuation c1, continuation c2, continuation c3 with
            | Some x1, Some x2, Some x3 =>
                to_ascii_char ((n - 240) * 262144 + x1 * 4096 + x2 * 64 + x3)
                              (to_ascii r3)
            | _, _, _ => "?"
            end
        | _ => "?"
        end
      else "?"
  end.

(** [int(s)] for a string, base 10: the characters beyond ASCII are
    turned into ASCII, surrounding white space is dropped, one sign is
    allowed, then come the digits.  The interpreter's limit on the number
    of digits, which is a setting, is not modelled. *)
Definition int (s : string) : result Z :=
  match strip (to_ascii s) with
  | String c t =>
      if Ascii.eqb c "-" then n <- int_digits t ;; Ok (- n)
      else if Ascii.eqb c "+" then int_digits t
      else int_digits (String c t)
  | EmptyString => int_digits EmptyString
  end.

(** [a, b = map(int, parts)]: [map] is lazy, so the parts are converted
    one by one while the unpacking asks for them, a third one included
    before the unpacking can complain that there are too many. *)
Definition unpack2_int (parts : list string) : result (Z * Z) :=
  match parts with
  | [] => Raise (ValueError "not enough values to unpack (expected 2, got 0)")
  | [a] =>
      _ <- int a ;;
      Raise (ValueError "not enough values to unpack (expected 2, got 1)")
  | a :: b :: rest =>
      x <- int a ;;
      y <- int b ;;
      match rest with
      | [] => Ok (x, y)
      | c :: _ =>
          _ <- int c ;;
          Raise (ValueError "too many values to unpack (expected 2)")
      end
  end.

(** *** Lists *)

(** [l[:n]]: a negative bound counts from the end, and a bound outside
    the list is clipped. *)
Definition slice_to {A : Type} (l : list A) (n : Z) : list A :=
  if 0 <=? n then firstn (Z.to_nat n) l
  else firstn (Z.to_nat (Z.of_nat (List.length l) + n)) l.

(** [sorted(l, key=key, reverse=reverse)].  Python's sort is a stable
    comparison sort that only ever asks [key(x) < key(y)] and lets the
    exception of a failed comparison escape.  It is modelled as a stable
    insertion sort over the same [<]: an element goes after every element
    it is not less than.  With [reverse=True] the list is reversed, sorted
    and reversed again, which keeps equal elements in their original
    order.  On keys that [<] orders totally (numbers without NaN, or
    strings) every stable sort returns this list.  With a NaN among the
    keys the order Python returns depends on how its sort merges and is
    not the one given here; whether an exception is raised is the same. *)
Section Sorted.
Context {A : Type} (key : A -> pyval).

Fixpoint insert (x : A) (l : list A) : result (list A) :=
  match l with
  | [] => Ok [x]
  | y :: ys =>
      b <- py_lt (key x) (key y) ;;
      if b then Ok (x :: y :: ys)
      else r <- insert x ys ;; Ok (y :: r)
  end.

Definition sort_ascending (l : list A) : result (list A) :=
  fold_left (fun acc x => a <- acc ;; insert x a) l (Ok []).

Definition sorted (reverse : bool) (l : list A) : result (list A) :=
  if reverse then r <- sort_ascending (rev l) ;; Ok (rev r)
  else sort_ascending l.
End Sorted.

End Py.

Import Py.

(** ** class Vacancies *)

Module Vacancies.

(** An instance: the five attributes [__init__] sets.  Only [salary] is
    checked, so every attribute is a [pyval]. *)
Record t : Type := mk {
  name : pyval;
  link : pyval;
  salary : pyval;
  description : pyval;
  id : pyval
}.

(** What [validation_data] returns for a salary that is not given. *)
Definition unspecified : pyval := PStr "Зарплата не указана".

Definition validation_data (salary : pyval) : result pyval :=
  if match salary with PNone => true | _ => false end
     || py_eq salary (PStr "")
  then Ok unspecified
  else if negb (isinstance_int_float salary)
  then Raise (ValueError "Зарплата должна быть числом")
  else
    negative <- py_lt salary (PInt 0) ;;
    if negative then Raise (ValueError "Зарплата не может быть отрицательной")
    else Ok salary.

(** [Vacancies(name, link, salary, description, id)] *)
Definition init (name link salary description id : pyval) : result t :=
  salary' <- validation_data salary ;;
  Ok (mk name link salary' description id).

Definition cast_to_object_list (vacancies_list : list dict) : result (list t) :=
  mapM (fun vacancy =>
          init (get vacancy "name")
               (get vacancy "link")
               (get_default vacancy "salary" (PInt 0))
               (get_default vacancy "description" (PStr ""))
               (get vacancy "id"))
       vacancies_list.

(** The right operand of a comparison: another vacancy, or anything
    else. *)
Inductive operand : Type :=
| Vacancy (other : t)
| Other (other : pyval).

(** What a comparison method returns: [NotImplemented], or a [bool]. *)
Inductive answer : Type :=
| NotImplemented
| Answer (b : bool).

(** The six comparison methods: each gives up on an operand that is no
    vacancy and otherwise compares the two salaries. *)
Definition lt (self : t) (other : operand) : result answer :=
  match other with
  | Other _ => Ok NotImplemented
  | Vacancy other => b <- py_lt (salary self) (salary other) ;; Ok (Answer b)
  end.

Definition le (self : t) (other : operand) : result answer :=
  match other with
  | Other _ => Ok NotImplemented
  | Vacancy other => b <- py_le (salary self) (salary other) ;; Ok (Answer b)
  end.

Definition eq (self : t) (other : operand) : result answer :=
  match other with
  | Other _ => Ok NotImplemented
  | Vacancy other => Ok (Answer (py_eq (salary self) (salary other)))
  end.

Definition ne (self : t) (other : operand) : result answer :=
  match other with
  | Other _ => Ok NotImplemented
  | Vacancy other => Ok (Answer (py_ne (salary self) (salary other)))
  end.

Definition gt (self : t) (other : operand) : result answer :=
  match other with
  | Other _ => Ok NotImplemented
  | Vacancy other => b <- py_gt (salary self) (salary other) ;; Ok (Answer b)
  end.

Definition ge (self : t) (other : operand) : result answer :=
  match other with
  | Other _ => Ok NotImplemented
  | Vacancy other => b <- py_ge (salary self) (salary other) ;; Ok (Answer b)
  end.

End Vacancies.

(** ** class HeadHunterAPI

    The server is what answers [requests.get]: the status code and, when
    the body has the key ["items"], the list under it.  During one call
    of [load_vacancies] every request asks for another page, so the
    server is a function of the text and the page asked for. *)

Module HeadHunterAPI.

Record response : Type := mk_response {
  status_code : Z;
  items : option (list dict)
}.

(** The attributes [load_vacancies] reads and writes: the parameters
    ["text"] and ["page"] and the list [vacancies]. *)
Record t : Type := mk {
  text : string;
  page : Z;
  vacancies : list dict
}.

(** [HeadHunterAPI(file_worker)] *)
Definition init : t := mk "" 0 [].

(** What one call leaves behind: the object, the value returned and the
    pages asked for, in order. *)
Record outcome : Type := mk_outcome {
  self_after : t;
  returned : list dict;
  asked : list Z
}.

Section Requests.
Variable requests_get : string -> Z -> response.

(** The [while] loop with [n] pages left before page 20. *)
Fixpoint pages (n : nat) (self : t) (sent : list Z) : outcome :=
  match n with
  | O => mk_outcome self (vacancies self) sent
  | S n' =>
      let response := requests_get (text self) (page self) in
      let sent := (sent ++ [page self])%list in
      if negb (status_code response =? 200) then mk_outcome self [] sent
      else
        match items response with
        | None | Some [] => mk_outcome self (vacancies self) sent
        | Some new =>
            pages n' (mk (text self) (page self + 1)
                         (vacancies self ++ new)%list) sent
        end
  end.

Definition load_vacancies (self : t) (keyword : string) : outcome :=
  let self := mk keyword (page self) (vacancies self) in
  pages (Z.to_nat (20 - page self)) self [].
End Requests.

End HeadHunterAPI.

(** ** class JSONSaver

    The file holds one JSON array of objects.  [json.dump] followed by
    [json.load] gives back the same scalars, so the state of the store is
    the list of dictionaries in the file; every method reads the whole
    list and the two that change it write a whole list back. *)

Module JSONSaver.

Definition file : Type := list dict.

(** The body of [__init__]: a missing file is created holding [[]], an
    existing one is left as it is. *)
Definition init (on_disk : option file) : file :=
  match on_disk with
  | None => []
  | Some vacancies => vacancies
  end.

(** The methods [AbstractVacancyConnector] declares abstract, and the
    methods the class body of [JSONSaver] defines. *)
Definition abstract_methods : list string :=
  ["add_vacancy"; "get_vacancy"; "del_vacancy"].

Definition own_methods : list string :=
  ["__init__"; "add_vacancy"; "get_vacancies"; "delete_vacancy"].

(** The abstract methods [JSONSaver] does not override. *)
Definition still_abstract : list string :=
  filter (fun method => negb (existsb (String.eqb method) own_methods))
         abstract_methods.

(** [JSONSaver(filename)]: a class that still has abstract methods cannot
    be instantiated, the call raises [TypeError] before [__init__] runs. *)
Definition new (on_disk : option file) : result file :=
  match still_abstract with
  | [] => Ok (init on_disk)
  | _ :: _ => Raise TypeError
  end.

Definition vacancy_dict (vacancy_data : Vacancies.t) : dict :=
  [ ("name", Vacancies.name vacancy_data);
    ("link", Vacancies.link vacancy_data);
    ("salary", Vacancies.salary vacancy_data);
    ("description", Vacancies.description vacancy_data);
    ("id", Vacancies.id vacancy_data) ].

Definition add_vacancy (vacancies : file) (vacancy_data : Vacancies.t) : file :=
  (vacancies ++ [vacancy_dict vacancy_data])%list.

(** The inner loop of [get_vacancies]: the flag [matches] after going
    through [criteria.items()], leaving at the first difference. *)
Fixpoint matches (vacancy criteria : dict) : bool :=
  match criteria with
  | [] => true
  | (key, value) :: rest =>
      if py_ne (get vacancy key) value then false
      else matches vacancy rest
  end.

Fixpoint get_vacancies (vacancies : file) (criteria : dict) : list dict :=
  match vacancies with
  | [] => []
  | vacancy :: rest =>
      if matches vacancy criteria
      then vacancy :: get_vacancies rest criteria
      else get_vacancies rest criteria
  end.

(** The list [not_suitable] that [delete_vacancy] writes back. *)
Fixpoint delete_vacancy (vacancies : file) (vacancy_id : pyval) : file :=
  match vacancies with
  | [] => []
  | vacancy :: rest =>
      if py_ne (get vacancy "id") vacancy_id
      then vacancy :: delete_vacancy rest vacancy_id
      else delete_vacancy rest vacancy_id
  end.

End JSONSaver.

(** ** The local functions of [user_interaction] *)

Module user_interaction.

Section Lower.
(** [str.lower]: Unicode case mapping, taken as given. *)
Variable lower : string -> string.

(** [v.lower()] on an arbitrary value: only a [str] has the method. *)
Definition lower_method (v : pyval) : result string :=
  match v with
  | PStr s => Ok (lower s)
  | _ => Raise AttributeError
  end.

(** [any(word.lower() in vacancy.get("description", "").lower()
        for word in filter_words)], which stops at the first hit. *)
Fixpoint any_word (vacancy : dict) (filter_words : list string) : result bool :=
  match filter_words with
  | [] => Ok false
  | word :: rest =>
      text <- lower_method (get_default vacancy "description" (PStr "")) ;;
      if str_contains (lower word) text then Ok true
      else any_word vacancy rest
  end.

Definition filter_vacancies (vacancies : list dict) (filter_words : list string)
  : result (list dict) :=
  filterM (fun vacancy => any_word vacancy filter_words) vacancies.
End Lower.

(** The test of the loop in [get_vacancies_by_salary]. *)
Definition in_range (min_salary max_salary : Z) (vacancy : dict) : bool :=
  let salary := get vacancy "salary" in
  isinstance_int salary &&
  match int_value salary with
  | Some n => (min_salary <=? n) && (n <=? max_salary)
  | None => false
  end.

(** [salary_range] is [None] when no range is given at all. *)
Definition get_vacancies_by_salary (vacancies : list dict) (salary_range : option string)
  : result (list dict) :=
  match salary_range with
  | None | Some EmptyString => Ok vacancies
  | Some range =>
      bounds <- unpack2_int (split "-" range) ;;
      let (min_salary, max_salary) := bounds in
      Ok (filter (in_range min_salary max_salary) vacancies)
  end.

Definition sort_vacancies (vacancies : list dict) : result (list dict) :=
  sorted (fun v => get_default v "salary" (PInt 0)) true vacancies.

Definition get_top_vacancies (vacancies : list dict) (top_n : Z) : list dict :=
  slice_to vacancies top_n.

(** The body of the [try] that asks for the count: the line read is
    converted and checked. *)
Definition read_top_n (line : string) : result Z :=
  top_n <- int line ;;
  if top_n <=? 0
  then Raise (ValueError "Количество вакансий должно быть положительным.")
  else Ok top_n.

(** The [while True] loop around it over the lines the user types: a
    [ValueError] is printed and the question asked again.  [None] when the
    input ends before a valid count was given. *)
Fixpoint ask_top_n (lines : list string) : option Z :=
  match lines with
  | [] => None
  | line :: rest =>
      match read_top_n line with
      | Ok top_n => Some top_n
      | Raise (ValueError _) => ask_top_n rest
      | Raise _ => None
      end
  end.

(** The four stages as [user_interaction] runs them on the list it got
    from the store. *)
Definition rank (lower : string -> string) (vacancies_list : list dict)
    (filter_words : list string) (salary_range : string) (top_n : Z)
  : result (list dict) :=
  filtered_vacancies <- filter_vacancies lower vacancies_list filter_words ;;
  ranged_vacancies <- get_vacancies_by_salary filtered_vacancies (Some salary_range) ;;
  sorted_vacancies <- sort_vacancies ranged_vacancies ;;
  Ok (get_top_vacancies sorted_vacancies top_n).

(** [top_vacancies] as [user_interaction] computes it from what was typed
    and the file of the store ([None]: no file yet): the store is opened,
    asked for the entries whose ["text"] is the query, and the stages run
    on the answer. *)
Definition top_vacancies (lower : string -> string) (on_disk : option JSONSaver.file)
    (search_query : string) (top_n : Z) (filter_words : list string)
    (salary_range : string) : result (list dict) :=
  json_saver <- JSONSaver.new on_disk ;;
  let vacancies_list :=
    JSONSaver.get_vacancies json_saver [("text", PStr search_query)] in
  rank lower vacancies_list filter_words salary_range top_n.

End user_interaction.

(** * Properties *)

(** ** Example data *)

(** 120000.0 as a binary64: the significand 120000 * 2^36 at the
    exponent -36. *)
Definition float_120000 : spec_float := S754_finite false 8246337208320000 (-36).

(** A stored entry with the given name (also its id) and salary. *)
Definition entry (name : string) (salary : pyval) : dict :=
  [("name", PStr name); ("link", PStr "https://hh.ru"); ("salary", salary);
   ("description", PStr ""); ("id", PStr name)].

(** ** The builtins on examples *)

Example int_plain : int "100000" = Ok 100000.
Proof. reflexivity. Qed.

Example int_spaces : int " 150000 " = Ok 150000.
Proof. reflexivity. Qed.

Example int_underscore : int "1_000" = Ok 1000 /\ int "1__0" = Raise invalid_literal.
Proof. split; reflexivity. Qed.

Example int_signs : int "-12" = Ok (-12) /\ int "+12" = Ok 12 /\ int "- 12" = Raise invalid_literal.
Proof. repeat split. Qed.

Example int_empty : int "" = Raise invalid_literal /\ int "abc" = Raise invalid_literal.
Proof. split; reflexivity. Qed.

Example int_other_scripts :
  int "٥" = Ok 5 /\ int "١٢٣" = Ok 123 /\ int "５６" = Ok 56 /\
  int "-٥" = Ok (-5) /\ int "1_٥" = Ok 15 /\ int " 5" = Ok 5 /\
  int "٥x" = Raise invalid_literal /\ int "é" = Raise invalid_literal.
Proof. repeat split. Qed.

Example split_range_example : split "-" "100000-150000" = ["100000"; "150000"].
Proof. reflexivity. Qed.

Example split_leading_dash : split "-" "-5-10" = [""; "5"; "10"].
Proof. reflexivity. Qed.

Example unpack_too_many :
  unpack2_int (split "-" "1-2-3") = Raise (ValueError "too many values to unpack (expected 2)").
Proof. reflexivity. Qed.

Example str_contains_examples :
  str_contains "tho" "python" = true /\ str_contains "" "" = true /\
  str_contains "x" "python" = false.
Proof. repeat split. Qed.

Example py_eq_numbers :
  py_eq (PInt 1) (PBool true) = true /\ py_eq (PInt 0) (PStr "") = false /\
  py_eq (PFloat S754_nan) (PFloat S754_nan) = false /\
  py_eq (PFloat (S754_zero true)) (PInt 0) = true /\
  py_eq (PFloat (S754_finite false 3 (-1))) (PInt 1) = false.
Proof. repeat split. Qed.

Example slice_to_examples :
  slice_to [1; 2; 3] 2 = [1; 2] /\ slice_to [1; 2; 3] 5 = [1; 2; 3] /\
  slice_to [1; 2; 3] (-1) = [1; 2] /\ slice_to [1; 2; 3] (-7) = [].
Proof. repeat split. Qed.

(** ** Salary validation and construction *)

Section Validation.

(** A salary below zero: a negative [int], a negative finite [float] or
    minus infinity. *)
Definition negative_salary (v : pyval) : Prop :=
  match v with
  | PInt z => z < 0
  | PFloat (S754_finite true _ _) | PFloat (S754_infinity true) => True
  | _ => False
  end.

(** A number that is zero or above.  NaN is a number and is neither. *)
Definition nonnegative_salary (v : pyval) : Prop :=
  match v with
  | PBool _ => True
  | PInt z => 0 <= z
  | PFloat (S754_zero _) | PFloat (S754_finite false _ _)
  | PFloat (S754_infinity false) => True
  | _ => False
  end.

(** The two arguments that stand for "no salary". *)
Definition not_given (v : pyval) : Prop := v = PNone \/ v = PStr "".

Lemma xlt_zero (m e : Z) : xlt (XFin m e) (XFin 0 0) = (m <? 0).
Proof.
  unfold xlt, xcompare.
  assert (Hp : 0 < 2 ^ (e - Z.min e 0)) by (apply Z.pow_pos_nonneg; lia).
  rewrite Z.mul_0_l.
  generalize dependent (2 ^ (e - Z.min e 0)). intros p Hp.
  destruct (Z.compare_spec (m * p) 0) as [H | H | H];
    destruct (Z.ltb_spec m 0) as [Hm | Hm]; try reflexivity; exfalso.
  - apply Z.mul_eq_0 in H. lia.
  - pose proof (Z.mul_nonneg_nonneg m p Hm (Z.lt_le_incl _ _ Hp)). lia.
  - pose proof (Z.mul_neg_pos m p Hm Hp). lia.
Qed.

Lemma validation_negative (v : pyval) :
  negative_salary v ->
  Vacancies.validation_data v = Raise (ValueError "Зарплата не может быть отрицательной").
Proof.
  destruct v as [ | b | z | f | s]; simpl; try contradiction.
  - intros Hz. unfold Vacancies.validation_data; simpl.
    rewrite xlt_zero. apply Z.ltb_lt in Hz. rewrite Hz. reflexivity.
  - destruct f as [ | [ | ] | | [ | ] m e]; try contradiction; intros _.
    + reflexivity.
    + unfold Vacancies.validation_data; simpl. rewrite xlt_zero. reflexivity.
Qed.

Lemma validation_not_number (v : pyval) :
  isinstance_int_float v = false -> ~ not_given v ->
  Vacancies.validation_data v = Raise (ValueError "Зарплата должна быть числом").
Proof.
  unfold not_given.
  destruct v as [ | b | z | f | s]; simpl; try discriminate; intros _ Hn.
  - exfalso. apply Hn. now left.
  - destruct s as [ | c s'].
    + exfalso. apply Hn. now right.
    + reflexivity.
Qed.

Lemma validation_nonnegative (v : pyval) :
  nonnegative_salary v -> Vacancies.validation_data v = Ok v.
Proof.
  destruct v as [ | b | z | f | s]; simpl; try contradiction.
  - intros _. now destruct b.
  - intros Hz. unfold Vacancies.validation_data; simpl.
    rewrite xlt_zero. apply Z.ltb_ge in Hz. rewrite Hz. reflexivity.
  - destruct f as [ [ | ] | [ | ] | | [ | ] m e]; try contradiction; intros _;
      try reflexivity.
    unfold Vacancies.validation_data; simpl. rewrite xlt_zero. reflexivity.
Qed.

(** C9.  Constructing a vacancy raises [ValueError] when the salary is
    negative, and when it is neither a number ([int], [float]) nor one of
    the two "not given" arguments; for a number that is zero or above the
    construction succeeds and the vacancy carries that very number. *)
Theorem init_validates_salary (name link salary description id : pyval) :
  (negative_salary salary ->
   Vacancies.init name link salary description id
   = Raise (ValueError "Зарплата не может быть отрицательной")) /\
  (isinstance_int_float salary = false -> ~ not_given salary ->
   Vacancies.init name link salary description id
   = Raise (ValueError "Зарплата должна быть числом")) /\
  (nonnegative_salary salary ->
   Vacancies.init name link salary description id
   = Ok (Vacancies.mk name link salary description id)).
Proof.
  unfold Vacancies.init. repeat split; intros H.
  - now rewrite (validation_negative _ H).
  - intros H'. now rewrite (validation_not_number _ H H').
  - now rewrite (validation_nonnegative _ H).
Qed.

(** The three cases of C9 at a negative [int], at a non-empty string and
    at the [float] 120000.0. *)
Lemma init_validates_salary_witness :
  Vacancies.init (PStr "Dev") (PStr "url") (PInt (-1)) (PStr "") PNone
  = Raise (ValueError "Зарплата не может быть отрицательной") /\
  Vacancies.init (PStr "Dev") (PStr "url") (PStr "много") (PStr "") PNone
  = Raise (ValueError "Зарплата должна быть числом") /\
  Vacancies.init (PStr "Dev") (PStr "url") (PFloat float_120000) (PStr "") PNone
  = Ok (Vacancies.mk (PStr "Dev") (PStr "url") (PFloat float_120000)
           (PStr "") PNone).
Proof.
  split; [|split].
  - apply (init_validates_salary (PStr "Dev") (PStr "url") (PInt (-1))).
    simpl. lia.
  - apply (init_validates_salary (PStr "Dev") (PStr "url") (PStr "много")).
    + reflexivity.
    + unfold not_given. intros [H | H]; discriminate H.
  - apply (init_validates_salary (PStr "Dev") (PStr "url")
             (PFloat float_120000)).
    simpl. exact I.
Defined.

(** C10.  With the salary [None] or the empty string the construction
    succeeds, for any other arguments, and the salary of the vacancy is
    the string [unspecified], which is not a number. *)
Theorem init_salary_not_given (name link description id : pyval) :
  Vacancies.init name link PNone description id
  = Ok (Vacancies.mk name link Vacancies.unspecified description id) /\
  Vacancies.init name link (PStr "") description id
  = Ok (Vacancies.mk name link Vacancies.unspecified description id) /\
  isinstance_int_float Vacancies.unspecified = false.
Proof. repeat split. Qed.

End Validation.

(** ** Construction from raw items *)

Section FromRaw.

(** What [cast_to_object_list] makes of one item, when it makes one. *)
Definition cast_item (vacancy : dict) (salary : pyval) : Vacancies.t :=
  Vacancies.mk (get vacancy "name") (get vacancy "link") salary
               (get_default vacancy "description" (PStr "")) (get vacancy "id").

Lemma cast_cons (vacancy : dict) (rest : list dict) :
  Vacancies.cast_to_object_list (vacancy :: rest)
  = (salary <- Vacancies.validation_data (get_default vacancy "salary" (PInt 0)) ;;
     objs <- Vacancies.cast_to_object_list rest ;;
     Ok (cast_item vacancy salary :: objs)).
Proof.
  unfold Vacancies.cast_to_object_list, Vacancies.init; simpl.
  now destruct (Vacancies.validation_data _).
Qed.

Lemma get_default_missing (d : dict) (k : string) (default : pyval) :
  lookup d k = None -> get_default d k default = default.
Proof. unfold get_default. now intros ->. Qed.

(** The defaults as the claim C2 has them do not hold: an item without a
    salary becomes a vacancy with the salary [0], an [int], and not the
    string [unspecified]. *)
Lemma cast_missing_salary_counterexample :
  lookup [("name", PStr "Dev")] "salary" = None /\
  Vacancies.cast_to_object_list [[("name", PStr "Dev")]]
  = Ok [Vacancies.mk (PStr "Dev") PNone (PInt 0) (PStr "") PNone] /\
  PInt 0 <> Vacancies.unspecified.
Proof. repeat split. discriminate. Qed.

(** C2, amended.  A list of items none of which has a salary is always
    converted; and whenever a list is converted, an item without a
    salary has become a vacancy with the salary [0] and an item without a
    description a vacancy with the empty description. *)
Theorem cast_to_object_list_defaults (vacancies_list : list dict) :
  (Forall (fun item => lookup item "salary" = None) vacancies_list ->
   Vacancies.cast_to_object_list vacancies_list
   = Ok (map (fun item => cast_item item (PInt 0)) vacancies_list)) /\
  (forall objs,
     Vacancies.cast_to_object_list vacancies_list = Ok objs ->
     Forall2 (fun item obj =>
                (lookup item "salary" = None -> Vacancies.salary obj = PInt 0) /\
                (lookup item "description" = None ->
                 Vacancies.description obj = PStr ""))
             vacancies_list objs).
Proof.
  split.
  - induction 1 as [ | item rest Hitem _ IH]; [reflexivity|].
    rewrite cast_cons, (get_default_missing _ _ _ Hitem), IH. reflexivity.
  - induction vacancies_list as [ | item rest IH]; intros objs H.
    + injection H as <-. constructor.
    + rewrite cast_cons in H.
      destruct (Vacancies.validation_data _) as [salary | e] eqn:Hs;
        [|discriminate H].
      simpl in H.
      destruct (Vacancies.cast_to_object_list rest) as [objs' | e];
        [|discriminate H].
      injection H as <-. constructor; [|now apply IH].
      split; intros Hmiss; simpl.
      * rewrite (get_default_missing _ _ _ Hmiss) in Hs. now injection Hs as <-.
      * now apply get_default_missing.
Qed.

(** The amended C2 at two items, one with nothing but a name and one with
    nothing but a link. *)
Lemma cast_to_object_list_defaults_witness :
  Vacancies.cast_to_object_list [[("name", PStr "Dev")]; [("link", PStr "url")]]
  = Ok [Vacancies.mk (PStr "Dev") PNone (PInt 0) (PStr "") PNone;
        Vacancies.mk PNone (PStr "url") (PInt 0) (PStr "") PNone].
Proof.
  apply (proj1 (cast_to_object_list_defaults
                  [[("name", PStr "Dev")]; [("link", PStr "url")]])).
  repeat constructor.
Defined.

End FromRaw.

(** ** The keyword filter *)

Section KeywordFilter.

Variable lower : string -> string.

Lemma prefix_iff (p s : string) :
  String.prefix p s = true <-> exists rest, s = p ++ rest.
Proof.
  revert s. induction p as [ | c p IH]; intros s.
  - split; [intros _; now exists s | now destruct s].
  - destruct s as [ | d s]; simpl.
    + split; [discriminate | intros [rest H]; discriminate H].
    + destruct (ascii_dec c d) as [-> | Hcd].
      * rewrite IH. split; intros [rest H]; exists rest.
        -- now rewrite H.
        -- now injection H.
      * split; [discriminate | intros [rest H]; injection H; congruence].
Qed.

(** [str_contains] is the substring test. *)
Lemma str_contains_iff (sub s : string) :
  str_contains sub s = true <-> exists before after, s = before ++ sub ++ after.
Proof.
  induction s as [ | c s IH]; cbn [str_contains].
  - rewrite prefix_iff. split.
    + intros [rest H]. now exists "", rest.
    + intros [before [after H]]. destruct before; [now exists after|discriminate H].
  - rewrite orb_true_iff, IH, prefix_iff. split.
    + intros [[rest H] | [before [after H]]].
      * now exists "", rest.
      * exists (String c before), after. simpl. now rewrite H.
    + intros [[ | d before] [after H]].
      * left. now exists after.
      * right. exists before, after. simpl in H. now injection H.
Qed.

(** The text [filter_vacancies] looks into, for an entry whose
    description is a string or is missing. *)
Definition description_text (vacancy : dict) : option string :=
  match get_default vacancy "description" (PStr "") with
  | PStr s => Some s
  | _ => None
  end.

Definition has_keyword (filter_words : list string) (vacancy : dict) : bool :=
  match description_text vacancy with
  | Some text =>
      existsb (fun word => str_contains (lower word) (lower text)) filter_words
  | None => false
  end.

Lemma any_word_has_keyword (vacancy : dict) (filter_words : list string) (text : string) :
  description_text vacancy = Some text ->
  user_interaction.any_word lower vacancy filter_words
  = Ok (has_keyword filter_words vacancy).
Proof.
  unfold has_keyword, description_text. intros H.
  destruct (get_default vacancy "description" (PStr "")) as [ | | | | s] eqn:Hd;
    try discriminate H.
  injection H as ->.
  induction filter_words as [ | word rest IH]; simpl; [reflexivity|].
  rewrite Hd; simpl.
  destruct (str_contains (lower word) (lower text)); [reflexivity | exact IH].
Qed.

(** With textual descriptions the filter keeps, in order, the entries
    whose lowered description contains a lowered keyword. *)
Lemma filter_vacancies_keeps_matches (vacancies : list dict) (filter_words : list string) :
  Forall (fun vacancy => description_text vacancy <> None) vacancies ->
  user_interaction.filter_vacancies lower vacancies filter_words
  = Ok (filter (has_keyword filter_words) vacancies).
Proof.
  unfold user_interaction.filter_vacancies.
  induction 1 as [ | vacancy rest Hv _ IH]; simpl; [reflexivity|].
  destruct (description_text vacancy) as [text | ] eqn:Ht; [|congruence].
  rewrite (any_word_has_keyword _ _ _ Ht), IH. reflexivity.
Qed.

(** C1.  With no keyword [filter_vacancies] keeps no entry at all:
    [any] of nothing is false.  The claim has it return every entry. *)
Theorem filter_vacancies_without_keywords (vacancies : list dict) :
  user_interaction.filter_vacancies lower vacancies [] = Ok [].
Proof.
  unfold user_interaction.filter_vacancies.
  induction vacancies as [ | vacancy rest IH]; cbn [filterM]; [reflexivity|].
  now rewrite IH.
Qed.

End KeywordFilter.

(** [str.lower] on text whose letters are ASCII. *)
Definition lower_ascii_char (c : ascii) : ascii :=
  let n := N_of_ascii c in
  if ((65 <=? n) && (n <=? 90))%N then ascii_of_N (n + 32) else c.

Fixpoint lower_ascii (s : string) : string :=
  match s with
  | EmptyString => EmptyString
  | String c r => String (lower_ascii_char c) (lower_ascii r)
  end.

(** The keyword "python" finds "Python developer"; a keyword is looked
    for anywhere in the text, not word by word. *)
Example filter_vacancies_case_insensitive :
  user_interaction.filter_vacancies lower_ascii
    [[("name", PStr "a"); ("description", PStr "Python developer")];
     [("name", PStr "b"); ("description", PStr "Rust")];
     [("name", PStr "c"); ("description", PStr "CPYTHON internals")]]
    ["go"; "python"]
  = Ok [[("name", PStr "a"); ("description", PStr "Python developer")];
        [("name", PStr "c"); ("description", PStr "CPYTHON internals")]].
Proof. reflexivity. Qed.

(** A description that is not text stops the filter. *)
Example filter_vacancies_description_none :
  user_interaction.filter_vacancies lower_ascii
    [[("name", PStr "a"); ("description", PNone)]] ["python"]
  = Raise AttributeError.
Proof. reflexivity. Qed.

(** ** The salary range filter *)

Section SalaryRange.

(** The characters of [s] do not include the separator. *)
Fixpoint no_dash (s : string) : Prop :=
  match s with
  | EmptyString => True
  | String c r => c <> "-"%char /\ no_dash r
  end.

Lemma split_no_dash (s : string) : no_dash s -> split "-" s = [s].
Proof.
  induction s as [ | c r IH]; simpl; [reflexivity|].
  intros [Hc Hr]. rewrite (IH Hr).
  destruct (Ascii.eqb_spec c "-"); [contradiction | reflexivity].
Qed.

Lemma split_range (smin smax : string) :
  no_dash smin -> no_dash smax ->
  split "-" (smin ++ "-" ++ smax) = [smin; smax].
Proof.
  intros Hmin Hmax. induction smin as [ | c r IH]; simpl in *.
  - now rewrite (split_no_dash _ Hmax).
  - destruct Hmin as [Hc Hr]. rewrite (IH Hr).
    destruct (Ascii.eqb_spec c "-"); [contradiction | reflexivity].
Qed.

(** The entries the range filter keeps: those whose salary is an [int]
    (a [bool] counts as 0 or 1) between the bounds.  A [float], a string
    and [None] are never kept. *)
Definition salary_within (lo hi : Z) (vacancy : dict) : bool :=
  match get vacancy "salary" with
  | PInt n => (lo <=? n) && (n <=? hi)
  | PBool b => (lo <=? Z.b2z b) && (Z.b2z b <=? hi)
  | PFloat _ | PStr _ | PNone => false
  end.

Lemma in_range_salary_within (lo hi : Z) (vacancy : dict) :
  user_interaction.in_range lo hi vacancy = salary_within lo hi vacancy.
Proof.
  unfold user_interaction.in_range, salary_within.
  now destruct (get vacancy "salary").
Qed.

(** Whatever parses to two bounds filters by them. *)
Lemma get_vacancies_by_salary_parsed
    (vacancies : list dict) (range : string) (lo hi : Z) :
  unpack2_int (split "-" range) = Ok (lo, hi) ->
  user_interaction.get_vacancies_by_salary vacancies (Some range)
  = Ok (filter (salary_within lo hi) vacancies).
Proof.
  intros H. unfold user_interaction.get_vacancies_by_salary.
  destruct range as [ | c r]; [discriminate H|].
  rewrite H. simpl. f_equal.
  apply filter_ext. intros v. apply in_range_salary_within.
Qed.

(** The range filter does not keep every numeric salary within the
    bounds, as the claim C5 has it: the [float] 120000.0 is a number
    ([validation_data] accepts it), lies between 100000 and 150000, and
    its entry is dropped. *)
Lemma range_drops_float_counterexample :
  Vacancies.validation_data (PFloat float_120000) = Ok (PFloat float_120000) /\
  py_lt (PInt 100000) (PFloat float_120000) = Ok true /\
  py_lt (PFloat float_120000) (PInt 150000) = Ok true /\
  user_interaction.get_vacancies_by_salary
    [[("name", PStr "Dev"); ("salary", PFloat float_120000)]]
    (Some "100000-150000")
  = Ok [].
Proof. repeat split. Qed.

(** C5, amended.  Without a range (none, or the empty string) the entries
    come back as they are.  With a range that reads [min-max] the filter
    keeps, in order, the entries whose salary is an [int] with
    [min <= salary <= max], both ends included; entries whose salary is
    a string (the [unspecified] one among them), a [float] or [None] are
    dropped. *)
Theorem get_vacancies_by_salary_keeps (vacancies : list dict) :
  user_interaction.get_vacancies_by_salary vacancies None = Ok vacancies /\
  user_interaction.get_vacancies_by_salary vacancies (Some "") = Ok vacancies /\
  (forall (smin smax : string) (lo hi : Z),
     no_dash smin -> no_dash smax -> int smin = Ok lo -> int smax = Ok hi ->
     user_interaction.get_vacancies_by_salary vacancies (Some (smin ++ "-" ++ smax))
     = Ok (filter (salary_within lo hi) vacancies)).
Proof.
  repeat split.
  intros smin smax lo hi Hmin Hmax Hlo Hhi.
  apply get_vacancies_by_salary_parsed.
  rewrite (split_range _ _ Hmin Hmax). simpl. now rewrite Hlo, Hhi.
Qed.

(** The amended C5 at the range [100000-150000]: the salaries 100000 and
    150000 stay; 99999, 150001 and the unspecified one go. *)
Lemma get_vacancies_by_salary_keeps_witness :
  user_interaction.get_vacancies_by_salary
    [entry "a" (PInt 100000); entry "b" (PInt 99999); entry "c" (PInt 150000);
     entry "d" (PInt 150001); entry "e" Vacancies.unspecified]
    (Some "100000-150000")
  = Ok [entry "a" (PInt 100000); entry "c" (PInt 150000)].
Proof.
  apply (proj2 (proj2 (get_vacancies_by_salary_keeps
           [entry "a" (PInt 100000); entry "b" (PInt 99999);
            entry "c" (PInt 150000); entry "d" (PInt 150001);
            entry "e" Vacancies.unspecified]))
         "100000" "150000" 100000 150000).
  - simpl. repeat split; discriminate.
  - simpl. repeat split; discriminate.
  - reflexivity.
  - reflexivity.
Defined.

End SalaryRange.

(** ** Top N *)

Section TopN.

Lemma int_digits_raises (s : string) (e : exn) :
  int_digits s = Raise e -> e = invalid_literal.
Proof.
  unfold int_digits. destruct (digits 0 false s); [discriminate|].
  now intros [= <-].
Qed.

(** The only exception of [int] is the [ValueError] of a bad literal. *)
Lemma int_raises (s : string) (e : exn) : int s = Raise e -> e = invalid_literal.
Proof.
  unfold int. destruct (strip (to_ascii s)) as [ | c t].
  - apply int_digits_raises.
  - destruct (Ascii.eqb c "-"); [|destruct (Ascii.eqb c "+")];
      try apply int_digits_raises.
    destruct (int_digits t) as [n | e'] eqn:Hd; simpl; [discriminate|].
    intros [= <-]. now apply int_digits_raises in Hd.
Qed.

Lemma read_top_n_positive (line : string) (top_n : Z) :
  user_interaction.read_top_n line = Ok top_n -> 0 < top_n.
Proof.
  unfold user_interaction.read_top_n.
  destruct (int line) as [n | e]; simpl; [|discriminate].
  destruct (Z.leb_spec n 0) as [Hle | Hpos]; [discriminate|].
  intros H. injection H as <-. exact Hpos.
Qed.

(** [get_top_vacancies] does not fail on a count that is not positive,
    as the claim C4 has it: it is a slice, which gives nothing for 0 and
    drops the last entry for -1. *)
Lemma get_top_vacancies_counterexample :
  user_interaction.get_top_vacancies
    [entry "a" (PInt 3); entry "b" (PInt 2); entry "c" (PInt 1)] 0 = [] /\
  user_interaction.get_top_vacancies
    [entry "a" (PInt 3); entry "b" (PInt 2); entry "c" (PInt 1)] (-1)
  = [entry "a" (PInt 3); entry "b" (PInt 2)].
Proof. split; reflexivity. Qed.

(** C4, amended.  For a positive count [get_top_vacancies] returns the
    first [min top_n (len vacancies)] entries.  It checks nothing itself
    and never fails: for the count 0 it returns nothing, and for a
    negative count it returns the entries without the last [- top_n] of
    them (nothing, when there are no more than that).  The count is
    checked where it is read, [read_top_n] raising [ValueError] for a line
    that is no integer or an integer that is not positive, so that the
    loop [ask_top_n] only ever yields a positive count. *)
Theorem get_top_vacancies_prefix (vacancies : list dict) :
  (forall top_n : Z, 0 < top_n ->
     user_interaction.get_top_vacancies vacancies top_n
     = firstn (Z.to_nat top_n) vacancies /\
     Z.of_nat (List.length (user_interaction.get_top_vacancies vacancies top_n))
     = Z.min top_n (Z.of_nat (List.length vacancies))) /\
  user_interaction.get_top_vacancies vacancies 0 = [] /\
  (forall top_n : Z, top_n < 0 ->
     user_interaction.get_top_vacancies vacancies top_n
     = firstn (List.length vacancies - Z.to_nat (- top_n)) vacancies /\
     Z.of_nat (List.length (user_interaction.get_top_vacancies vacancies top_n))
     = Z.max 0 (Z.of_nat (List.length vacancies) + top_n)) /\
  (forall (line : string) (top_n : Z), int line = Ok top_n -> top_n <= 0 ->
     user_interaction.read_top_n line
     = Raise (ValueError "Количество вакансий должно быть положительным.")) /\
  (forall (line : string) (e : exn), int line = Raise e ->
     user_interaction.read_top_n line = Raise invalid_literal) /\
  (forall (lines : list string) (top_n : Z),
     user_interaction.ask_top_n lines = Some top_n -> 0 < top_n).
Proof.
  split; [|split; [|split; [|split; [|split]]]].
  - intros top_n Hpos.
    unfold user_interaction.get_top_vacancies, slice_to.
    destruct (Z.leb_spec 0 top_n) as [_ | Hneg]; [|lia].
    split; [reflexivity|]. rewrite length_firstn. lia.
  - reflexivity.
  - intros top_n Hneg.
    unfold user_interaction.get_top_vacancies, slice_to.
    destruct (Z.leb_spec 0 top_n) as [Hpos | _]; [lia|].
    replace (Z.to_nat (Z.of_nat (List.length vacancies) + top_n))
      with (List.length vacancies - Z.to_nat (- top_n))%nat by lia.
    split; [reflexivity|]. rewrite length_firstn. lia.
  - intros line top_n Hint Hle. unfold user_interaction.read_top_n.
    rewrite Hint; simpl. destruct (Z.leb_spec top_n 0) as [_ | Hpos]; [reflexivity|lia].
  - intros line e Hint. unfold user_interaction.read_top_n.
    rewrite (int_raises _ _ Hint) in Hint. now rewrite Hint.
  - intros lines top_n. induction lines as [ | line rest IH]; simpl; [discriminate|].
    destruct (user_interaction.read_top_n line) as [n | [msg | | ]] eqn:Hread;
      try discriminate; [|exact IH].
    intros H. injection H as <-. now apply read_top_n_positive in Hread.
Qed.

(** The amended C4 at the two examples of the claim (the first two of
    five entries, and all of three entries when ten are asked for), at the
    count -2 and at the line "-2". *)
Lemma get_top_vacancies_prefix_witness :
  user_interaction.get_top_vacancies
    [entry "a" (PInt 5); entry "b" (PInt 4); entry "c" (PInt 3);
     entry "d" (PInt 2); entry "e" (PInt 1)] 2
  = [entry "a" (PInt 5); entry "b" (PInt 4)] /\
  user_interaction.get_top_vacancies
    [entry "a" (PInt 3); entry "b" (PInt 2); entry "c" (PInt 1)] 10
  = [entry "a" (PInt 3); entry "b" (PInt 2); entry "c" (PInt 1)] /\
  user_interaction.get_top_vacancies
    [entry "a" (PInt 3); entry "b" (PInt 2); entry "c" (PInt 1)] (-2)
  = [entry "a" (PInt 3)] /\
  user_interaction.read_top_n "-2"
  = Raise (ValueError "Количество вакансий должно быть положительным.").
Proof.
  split; [|split; [|split]].
  - apply (proj1 (get_top_vacancies_prefix
             [entry "a" (PInt 5); entry "b" (PInt 4); entry "c" (PInt 3);
              entry "d" (PInt 2); entry "e" (PInt 1)]) 2).
    lia.
  - apply (proj1 (get_top_vacancies_prefix
             [entry "a" (PInt 3); entry "b" (PInt 2); entry "c" (PInt 1)]) 10).
    lia.
  - apply (proj1 (proj2 (proj2 (get_top_vacancies_prefix
             [entry "a" (PInt 3); entry "b" (PInt 2); entry "c" (PInt 1)]))) (-2)).
    lia.
  - apply (proj1 (proj2 (proj2 (proj2 (get_top_vacancies_prefix [])))) "-2" (-2)).
    + reflexivity.
    + lia.
Defined.

End TopN.

(** ** Sorting *)

Section Sorting.

(** On salaries that are all numbers the sort is the stable descending
    one: the two entries with 50000 stay in their order. *)
Example sort_vacancies_numbers :
  user_interaction.sort_vacancies
    [entry "a" (PInt 50000); entry "c" (PInt 90000); entry "d" (PInt 50000)]
  = Ok [entry "c" (PInt 90000); entry "a" (PInt 50000); entry "d" (PInt 50000)].
Proof. reflexivity. Qed.

(** Which values [<] relates: numbers with numbers, strings with
    strings. *)
Definition is_number (v : pyval) : Prop := isinstance_int_float v = true.
Definition is_string (v : pyval) : Prop := exists s, v = PStr s.

Lemma py_lt_defined (a b : pyval) (r : bool) :
  py_lt a b = Ok r ->
  (is_number a /\ is_number b) \/ (is_string a /\ is_string b).
Proof.
  unfold is_number, is_string.
  destruct a as [ | ba | za | fa | sa], b as [ | bb | zb | fb | sb]; simpl;
    try discriminate; intros _; try (left; now split).
  right. split; eexists; reflexivity.
Qed.

Lemma py_lt_raises (a b : pyval) (e : exn) : py_lt a b = Raise e -> e = TypeError.
Proof.
  destruct a as [ | ba | za | fa | sa], b as [ | bb | zb | fb | sb]; simpl;
    try discriminate; now intros [= <-].
Qed.

Lemma number_not_string (v : pyval) : is_number v -> is_string v -> False.
Proof. intros Hn [s ->]. discriminate Hn. Qed.

Section Uniform.

Context {A : Type} (key : A -> pyval).

(** What a list that went through the sort without an exception looks
    like: at most one element, or keys that are all numbers, or keys that
    are all strings. *)
Definition uniform (l : list A) : Prop :=
  (List.length l <= 1)%nat \/
  Forall (fun x => is_number (key x)) l \/
  Forall (fun x => is_string (key x)) l.

Lemma insert_raises (x : A) (l : list A) (e : exn) :
  insert key x l = Raise e -> e = TypeError.
Proof.
  induction l as [ | y ys IH]; simpl; [discriminate|].
  destruct (py_lt (key x) (key y)) as [[ | ] | e'] eqn:Hlt; simpl.
  - discriminate.
  - destruct (insert key x ys) as [r | e'']; simpl; [discriminate|].
    intros [= <-]. now apply IH.
  - intros [= <-]. now apply py_lt_raises in Hlt.
Qed.

Lemma insert_In (x : A) (l r : list A) :
  insert key x l = Ok r -> forall y, In y r <-> y = x \/ In y l.
Proof.
  revert r. induction l as [ | y ys IH]; simpl; intros r.
  - intros [= <-] z. simpl. intuition.
  - destruct (py_lt (key x) (key y)) as [[ | ] | e]; simpl; try discriminate.
    + intros [= <-] z. simpl. intuition.
    + destruct (insert key x ys) as [r' | e]; simpl; [|discriminate].
      intros [= <-] z. simpl. rewrite (IH r' eq_refl z). intuition.
Qed.

Lemma insert_uniform (x : A) (l r : list A) :
  uniform l -> insert key x l = Ok r -> uniform r.
Proof.
  intros Hu Hins. pose proof (insert_In _ _ _ Hins) as Hin.
  destruct l as [ | y ys].
  - injection Hins as <-. left. simpl. lia.
  - simpl in Hins.
    destruct (py_lt (key x) (key y)) as [b | e] eqn:Hlt; [|discriminate Hins].
    apply py_lt_defined in Hlt. unfold uniform.
    assert (Hkind : forall P : pyval -> Prop,
               P (key x) -> Forall (fun z => P (key z)) (y :: ys) ->
               Forall (fun z => P (key z)) r).
    { intros P Hx Hl. apply Forall_forall. intros z Hz.
      apply Hin in Hz. destruct Hz as [-> | Hz]; [exact Hx|].
      now apply (proj1 (Forall_forall _ _) Hl). }
    destruct Hu as [Hlen | [Hnum | Hstr]].
    + destruct ys as [ | y' ys']; [|simpl in Hlen; lia].
      destruct Hlt as [[Hx Hy] | [Hx Hy]]; [right; left | right; right];
        apply Hkind; auto.
    + destruct Hlt as [[Hx Hy] | [Hx Hy]].
      * right; left. now apply Hkind.
      * exfalso. apply (number_not_string (key y)); [|exact Hy].
        now inversion Hnum.
    + destruct Hlt as [[Hx Hy] | [Hx Hy]].
      * exfalso. apply (number_not_string (key y)); [exact Hy|].
        now inversion Hstr.
      * right; right. now apply Hkind.
Qed.

Lemma fold_insert_raise (l : list A) (e : exn) :
  fold_left (fun acc x => a <- acc ;; insert key x a) l (Raise e) = Raise e.
Proof. induction l as [ | x xs IH]; simpl; [reflexivity | exact IH]. Qed.

Lemma fold_insert_outcome (l acc : list A) :
  uniform acc ->
  match fold_left (fun acc x => a <- acc ;; insert key x a) l (Ok acc) with
  | Ok r => uniform r /\ forall y, In y r <-> In y acc \/ In y l
  | Raise e => e = TypeError
  end.
Proof.
  revert acc. induction l as [ | x xs IH]; intros acc Hu; simpl.
  - split; [exact Hu | intuition].
  - destruct (insert key x acc) as [acc' | e] eqn:Hins.
    + specialize (IH acc' (insert_uniform _ _ _ Hu Hins)).
      destruct (fold_left _ xs (Ok acc')) as [r | e]; [|exact IH].
      destruct IH as [Hr Hin]. split; [exact Hr|].
      intros y. rewrite Hin, (insert_In _ _ _ Hins y). intuition.
    + rewrite fold_insert_raise. now apply insert_raises in Hins.
Qed.

(** A list that holds a number key and a string key is not sorted: the
    sort ends in [TypeError], in either direction. *)
Lemma sorted_mixed_raises (reverse : bool) (l : list A) (x y : A) :
  In x l -> In y l -> is_number (key x) -> is_string (key y) ->
  sorted key reverse l = Raise TypeError.
Proof.
  intros Hx Hy Hnum Hstr.
  assert (Hasc : forall l', (forall z, In z l' <-> In z l) ->
                            sort_ascending key l' = Raise TypeError).
  { intros l' Hl'. unfold sort_ascending.
    assert (Hnil : uniform (@nil A)) by (left; simpl; lia).
    pose proof (fold_insert_outcome l' [] Hnil) as H.
    destruct (fold_left _ l' (Ok [])) as [r | e]; [|now subst e].
    exfalso. destruct H as [[Hlen | [Hall | Hall]] Hin].
    - assert (Hxr : In x r) by (apply Hin; right; now apply Hl').
      assert (Hyr : In y r) by (apply Hin; right; now apply Hl').
      destruct r as [ | z [ | z' r']]; simpl in *; try lia; try contradiction.
      destruct Hxr as [-> | []], Hyr as [-> | []].
      exact (number_not_string _ Hnum Hstr).
    - apply (number_not_string (key y)); [|exact Hstr].
      apply (proj1 (Forall_forall _ _) Hall). apply Hin. right. now apply Hl'.
    - apply (number_not_string (key x)); [exact Hnum|].
      apply (proj1 (Forall_forall _ _) Hall). apply Hin. right. now apply Hl'. }
  unfold sorted. destruct reverse.
  - rewrite Hasc; [reflexivity|]. intros z. symmetry. apply in_rev.
  - apply Hasc. intros z. reflexivity.
Qed.

End Uniform.

(** C3.  [sort_vacancies] returns no list when the entries include one
    whose salary is a number and one whose salary is the string
    [unspecified], as on the salaries 50000, unspecified, 90000, 50000 of
    the claim: it raises [TypeError], because [<] is not defined between a
    number and a string. *)
Theorem sort_vacancies_unspecified_raises (vacancies : list dict) (v w : dict) :
  In v vacancies -> In w vacancies ->
  isinstance_int_float (get_default v "salary" (PInt 0)) = true ->
  get_default w "salary" (PInt 0) = Vacancies.unspecified ->
  user_interaction.sort_vacancies vacancies = Raise TypeError.
Proof.
  intros Hv Hw Hnum Hstr. unfold user_interaction.sort_vacancies.
  apply (sorted_mixed_raises _ true vacancies v w Hv Hw Hnum).
  rewrite Hstr. eexists. reflexivity.
Qed.

(** C3 at the input of the claim. *)
Lemma sort_vacancies_unspecified_raises_witness :
  user_interaction.sort_vacancies
    [entry "a" (PInt 50000); entry "b" Vacancies.unspecified;
     entry "c" (PInt 90000); entry "d" (PInt 50000)]
  = Raise TypeError.
Proof.
  apply (sort_vacancies_unspecified_raises
           [entry "a" (PInt 50000); entry "b" Vacancies.unspecified;
            entry "c" (PInt 90000); entry "d" (PInt 50000)]
           (entry "a" (PInt 50000)) (entry "b" Vacancies.unspecified)).
  - simpl. auto.
  - simpl. auto.
  - reflexivity.
  - reflexivity.
Defined.

End Sorting.

(** ** The store *)

Section Store.

(** The test of [get_vacancies], criterion by criterion. *)
Definition meets (criteria : dict) (vacancy : dict) : bool :=
  forallb (fun kv => py_eq (get vacancy (fst kv)) (snd kv)) criteria.

Lemma matches_meets (vacancy criteria : dict) :
  JSONSaver.matches vacancy criteria = meets criteria vacancy.
Proof.
  induction criteria as [ | [key value] rest IH]; simpl; [reflexivity|].
  unfold py_ne. destruct (py_eq (get vacancy key) value); simpl;
    [exact IH | reflexivity].
Qed.

Lemma get_vacancies_filter (vacancies : JSONSaver.file) (criteria : dict) :
  JSONSaver.get_vacancies vacancies criteria = filter (meets criteria) vacancies.
Proof.
  induction vacancies as [ | vacancy rest IH]; simpl; [reflexivity|].
  now rewrite matches_meets, IH.
Qed.

Lemma py_eq_str (s t : string) : py_eq (PStr s) (PStr t) = true <-> s = t.
Proof. simpl. apply String.eqb_eq. Qed.

Lemma py_eq_str_number (s : string) (v : pyval) :
  isinstance_int_float v = true ->
  py_eq (PStr s) v = false /\ py_eq v (PStr s) = false.
Proof. destruct v; try discriminate; intros _; now split. Qed.

(** [get_vacancies] does not compare without coercion, as the claim C7
    has it: the criterion [salary = 120000.0], a [float], selects the
    entry whose salary is the [int] 120000, and the criterion [id = None]
    selects an entry that has no field [id] at all. *)
Lemma get_vacancies_counterexample :
  JSONSaver.get_vacancies
    [[("name", PStr "Dev"); ("salary", PInt 120000)]]
    [("salary", PFloat float_120000)]
  = [[("name", PStr "Dev"); ("salary", PInt 120000)]] /\
  PInt 120000 <> PFloat float_120000 /\
  JSONSaver.get_vacancies
    [[("name", PStr "Dev"); ("salary", PInt 120000)]] [("id", PNone)]
  = [[("name", PStr "Dev"); ("salary", PInt 120000)]] /\
  lookup [("name", PStr "Dev"); ("salary", PInt 120000)] "id" = None.
Proof. repeat split. discriminate. Qed.

(** C7, amended.  [get_vacancies] returns, in stored order, the entries
    that for every key of the criteria hold a value equal to the expected
    one, where a field the entry does not have reads as [None] and equal
    is Python's [==]: two strings are equal only when they are the same
    string, a string never equals a number, and numbers are equal by
    value whatever their types.  Empty criteria select every entry. *)
Theorem get_vacancies_exact (vacancies : JSONSaver.file) (criteria : dict) :
  JSONSaver.get_vacancies vacancies criteria = filter (meets criteria) vacancies /\
  JSONSaver.get_vacancies vacancies [] = vacancies /\
  (forall s t : string, py_eq (PStr s) (PStr t) = true <-> s = t) /\
  (forall (s : string) (v : pyval), isinstance_int_float v = true ->
     py_eq (PStr s) v = false /\ py_eq v (PStr s) = false).
Proof.
  split; [apply get_vacancies_filter|]. split; [|split].
  - rewrite get_vacancies_filter. induction vacancies as [ | v rest IH];
      simpl; [reflexivity | now rewrite IH].
  - apply py_eq_str.
  - apply py_eq_str_number.
Qed.

(** The amended C7 at a store of three entries and the criterion
    [name = "b"]: only the entry named "b" comes back, not the one whose
    name merely contains "b". *)
Lemma get_vacancies_exact_witness :
  JSONSaver.get_vacancies
    [entry "ab" (PInt 1); entry "b" (PInt 2); entry "c" (PInt 3)]
    [("name", PStr "b")]
  = [entry "b" (PInt 2)] /\
  py_eq (PStr "b") (PInt 2) = false.
Proof.
  split.
  - apply (proj1 (get_vacancies_exact
             [entry "ab" (PInt 1); entry "b" (PInt 2); entry "c" (PInt 3)]
             [("name", PStr "b")])).
  - apply (proj2 (proj2 (proj2 (get_vacancies_exact [] []))) "b" (PInt 2)).
    reflexivity.
Defined.

(** The entries [delete_vacancy] leaves. *)
Definition other_id (vacancy_id : pyval) (vacancy : dict) : bool :=
  negb (py_eq (get vacancy "id") vacancy_id).

Lemma delete_vacancy_filter (vacancies : JSONSaver.file) (vacancy_id : pyval) :
  JSONSaver.delete_vacancy vacancies vacancy_id
  = filter (other_id vacancy_id) vacancies.
Proof.
  induction vacancies as [ | vacancy rest IH]; simpl; [reflexivity|].
  unfold other_id at 1, py_ne. now rewrite IH.
Qed.

(** C8.  [delete_vacancy] leaves, in their order, exactly the entries
    whose id is not equal to the given one; it cannot fail, and when no
    entry has the given id the list is what it was. *)
Theorem delete_vacancy_removes (vacancies : JSONSaver.file) (vacancy_id : pyval) :
  JSONSaver.delete_vacancy vacancies vacancy_id
  = filter (other_id vacancy_id) vacancies /\
  (Forall (fun vacancy => py_eq (get vacancy "id") vacancy_id = false) vacancies ->
   JSONSaver.delete_vacancy vacancies vacancy_id = vacancies).
Proof.
  split; [apply delete_vacancy_filter|].
  rewrite delete_vacancy_filter.
  induction 1 as [ | vacancy rest Hv _ IH]; simpl; [reflexivity|].
  unfold other_id at 1. rewrite Hv, IH. reflexivity.
Qed.

(** C8 at a store of three entries: deleting the id "b" removes the
    second one, deleting the id "z" removes nothing. *)
Lemma delete_vacancy_removes_witness :
  JSONSaver.delete_vacancy
    [entry "a" (PInt 1); entry "b" (PInt 2); entry "c" (PInt 3)] (PStr "b")
  = [entry "a" (PInt 1); entry "c" (PInt 3)] /\
  JSONSaver.delete_vacancy
    [entry "a" (PInt 1); entry "b" (PInt 2); entry "c" (PInt 3)] (PStr "z")
  = [entry "a" (PInt 1); entry "b" (PInt 2); entry "c" (PInt 3)].
Proof.
  split.
  - apply (proj1 (delete_vacancy_removes
             [entry "a" (PInt 1); entry "b" (PInt 2); entry "c" (PInt 3)]
             (PStr "b"))).
  - apply (proj2 (delete_vacancy_removes
             [entry "a" (PInt 1); entry "b" (PInt 2); entry "c" (PInt 3)]
             (PStr "z"))).
    repeat constructor.
Defined.

Lemma get_vacancy_dict_id (vacancy_data : Vacancies.t) :
  get (JSONSaver.vacancy_dict vacancy_data) "id" = Vacancies.id vacancy_data.
Proof. reflexivity. Qed.

(** A vacancy appended to a store that already holds one with the same
    id is not the only answer to the query for its id, as the claim C6 has
    it: appending the same valid vacancy twice makes the query return two
    entries. *)
Lemma add_vacancy_twice_counterexample :
  Vacancies.init (PStr "Dev") (PStr "url") (PInt 100000) (PStr "") (PStr "1")
  = Ok (Vacancies.mk (PStr "Dev") (PStr "url") (PInt 100000) (PStr "") (PStr "1")) /\
  JSONSaver.get_vacancies
    (JSONSaver.add_vacancy
       (JSONSaver.add_vacancy []
          (Vacancies.mk (PStr "Dev") (PStr "url") (PInt 100000) (PStr "") (PStr "1")))
       (Vacancies.mk (PStr "Dev") (PStr "url") (PInt 100000) (PStr "") (PStr "1")))
    [("id", PStr "1")]
  = [JSONSaver.vacancy_dict
       (Vacancies.mk (PStr "Dev") (PStr "url") (PInt 100000) (PStr "") (PStr "1"));
     JSONSaver.vacancy_dict
       (Vacancies.mk (PStr "Dev") (PStr "url") (PInt 100000) (PStr "") (PStr "1"))].
Proof. split; reflexivity. Qed.

(** C6, amended.  After a vacancy whose id equals itself (every string
    and [None] do) is appended, the query for its id returns the entries
    that already had this id, in their order, and then the dictionary of
    the vacancy; it returns that dictionary alone when no stored entry had
    the id. *)
Theorem add_vacancy_then_get (vacancies : JSONSaver.file) (vacancy_data : Vacancies.t) :
  py_eq (Vacancies.id vacancy_data) (Vacancies.id vacancy_data) = true ->
  JSONSaver.get_vacancies (JSONSaver.add_vacancy vacancies vacancy_data)
                          [("id", Vacancies.id vacancy_data)]
  = (JSONSaver.get_vacancies vacancies [("id", Vacancies.id vacancy_data)]
     ++ [JSONSaver.vacancy_dict vacancy_data])%list /\
  (Forall (fun vacancy =>
             py_eq (get vacancy "id") (Vacancies.id vacancy_data) = false)
          vacancies ->
   JSONSaver.get_vacancies (JSONSaver.add_vacancy vacancies vacancy_data)
                           [("id", Vacancies.id vacancy_data)]
   = [JSONSaver.vacancy_dict vacancy_data]).
Proof.
  intros Hid.
  assert (Happ : JSONSaver.get_vacancies
                   (JSONSaver.add_vacancy vacancies vacancy_data)
                   [("id", Vacancies.id vacancy_data)]
                 = (JSONSaver.get_vacancies vacancies
                      [("id", Vacancies.id vacancy_data)]
                    ++ [JSONSaver.vacancy_dict vacancy_data])%list).
  { unfold JSONSaver.add_vacancy. rewrite !get_vacancies_filter, filter_app.
    f_equal. cbn [filter meets forallb fst snd].
    rewrite get_vacancy_dict_id, Hid. reflexivity. }
  split; [exact Happ|].
  intros Hnone. rewrite Happ, get_vacancies_filter.
  replace (filter _ vacancies) with (@nil dict); [reflexivity|].
  clear Happ. induction Hnone as [ | vacancy rest Hv _ IH]; simpl; [reflexivity|].
  unfold meets at 1. simpl. rewrite Hv. exact IH.
Qed.

(** The amended C6 at a store of two entries with other ids. *)
Lemma add_vacancy_then_get_witness :
  JSONSaver.get_vacancies
    (JSONSaver.add_vacancy
       [entry "a" (PInt 1); entry "b" (PInt 2)]
       (Vacancies.mk (PStr "Dev") (PStr "url") (PInt 100000) (PStr "") (PStr "1")))
    [("id", PStr "1")]
  = [JSONSaver.vacancy_dict
       (Vacancies.mk (PStr "Dev") (PStr "url") (PInt 100000) (PStr "") (PStr "1"))].
Proof.
  apply (proj2 (add_vacancy_then_get
           [entry "a" (PInt 1); entry "b" (PInt 2)]
           (Vacancies.mk (PStr "Dev") (PStr "url") (PInt 100000) (PStr "") (PStr "1"))
           eq_refl)).
  repeat constructor.
Defined.

End Store.

(** * Further properties *)

(** ** Vacancies: what a constructed vacancy holds *)

Section ConstructedVacancies.

(** A vacancy that [Vacancies(...)] returned. *)
Definition constructed (v : Vacancies.t) : Prop :=
  exists name link salary description id,
    Vacancies.init name link salary description id = Ok v.

Lemma validation_data_cases (salary s : pyval) :
  Vacancies.validation_data salary = Ok s ->
  (not_given salary /\ s = Vacancies.unspecified) \/
  (s = salary /\ isinstance_int_float salary = true /\ ~ negative_salary salary).
Proof.
  unfold not_given.
  destruct salary as [ | b | z | f | str].
  - intros [= <-]. left. split; [now left | reflexivity].
  - destruct b; intros [= <-]; right; repeat split; auto.
  - unfold Vacancies.validation_data; simpl. rewrite xlt_zero.
    destruct (Z.ltb_spec z 0) as [Hneg | Hpos]; intros [= <-].
    right. repeat split. simpl. lia.
  - destruct f as [ [ | ] | [ | ] | | [ | ] m e];
      unfold Vacancies.validation_data; simpl; try rewrite xlt_zero; simpl;
      intros [= <-]; right; repeat split; auto.
  - destruct str as [ | c str']; [|discriminate].
    intros [= <-]. left. split; [now right | reflexivity].
Qed.

(** A number that is not negative passes the validation unchanged, NaN
    included. *)
Lemma validation_data_number (salary : pyval) :
  isinstance_int_float salary = true -> ~ negative_salary salary ->
  Vacancies.validation_data salary = Ok salary.
Proof.
  destruct salary as [ | b | z | f | str]; try discriminate; intros _ Hn.
  - now destruct b.
  - unfold Vacancies.validation_data; simpl. rewrite xlt_zero.
    destruct (Z.ltb_spec z 0) as [Hneg | Hpos]; [|reflexivity].
    exfalso. apply Hn. exact Hneg.
  - destruct f as [ [ | ] | [ | ] | | [ | ] m e]; try reflexivity;
      try (exfalso; apply Hn; exact I).
    unfold Vacancies.validation_data; simpl. now rewrite xlt_zero.
Qed.

(** X1.  The salary of a constructed vacancy is the string [unspecified] or a
    number that is not negative; it is never [None], the empty string, a
    negative number or another string.  The other four attributes are the
    arguments, whatever they are. *)
Theorem init_attributes (name link salary description id : pyval) (v : Vacancies.t) :
  Vacancies.init name link salary description id = Ok v ->
  Vacancies.name v = name /\ Vacancies.link v = link /\
  Vacancies.description v = description /\ Vacancies.id v = id /\
  ((not_given salary /\ Vacancies.salary v = Vacancies.unspecified) \/
   (Vacancies.salary v = salary /\ isinstance_int_float salary = true /\
    ~ negative_salary salary)).
Proof.
  unfold Vacancies.init.
  destruct (Vacancies.validation_data salary) as [s | e] eqn:Hs; [|discriminate].
  intros [= <-]. simpl. repeat split. now apply validation_data_cases.
Qed.

(** [init_attributes] at the salary [""] and a description that is no
    text. *)
Lemma init_attributes_witness :
  Vacancies.name (Vacancies.mk (PStr "Dev") PNone Vacancies.unspecified (PInt 7) PNone)
  = PStr "Dev" /\
  Vacancies.link (Vacancies.mk (PStr "Dev") PNone Vacancies.unspecified (PInt 7) PNone)
  = PNone /\
  Vacancies.description
    (Vacancies.mk (PStr "Dev") PNone Vacancies.unspecified (PInt 7) PNone)
  = PInt 7 /\
  Vacancies.id (Vacancies.mk (PStr "Dev") PNone Vacancies.unspecified (PInt 7) PNone)
  = PNone /\
  ((not_given (PStr "") /\
    Vacancies.salary
      (Vacancies.mk (PStr "Dev") PNone Vacancies.unspecified (PInt 7) PNone)
    = Vacancies.unspecified) \/
   (Vacancies.salary
      (Vacancies.mk (PStr "Dev") PNone Vacancies.unspecified (PInt 7) PNone)
    = PStr "" /\ isinstance_int_float (PStr "") = true /\
    ~ negative_salary (PStr ""))).
Proof.
  exact (init_attributes (PStr "Dev") PNone (PStr "") (PInt 7) PNone
           (Vacancies.mk (PStr "Dev") PNone Vacancies.unspecified (PInt 7) PNone)
           eq_refl).
Defined.

(** ** Vacancies: the comparison methods *)

Lemma num_of_int_value (a : pyval) (z : Z) :
  int_value a = Some z -> num_of a = Some (XFin z 0).
Proof. destruct a; simpl; try discriminate; now intros [= <-]. Qed.

Lemma xcompare_int (a b : Z) : xcompare (XFin a 0) (XFin b 0) = Some (a ?= b).
Proof. unfold xcompare. simpl. now rewrite !Z.mul_1_r. Qed.

(** On [int] operands the comparisons are those of the integers. *)
Lemma py_compare_int (a b : pyval) (za zb : Z) :
  int_value a = Some za -> int_value b = Some zb ->
  py_lt a b = Ok (za <? zb) /\ py_le a b = Ok (za <=? zb) /\
  py_eq a b = (za =? zb).
Proof.
  intros Ha Hb.
  pose proof (num_of_int_value _ _ Ha) as Na.
  pose proof (num_of_int_value _ _ Hb) as Nb.
  assert (Hlt : py_lt a b = Ok (xlt (XFin za 0) (XFin zb 0))).
  { unfold py_lt. rewrite Na, Nb. destruct a, b; try discriminate; reflexivity. }
  assert (Hle : py_le a b = Ok (xle (XFin za 0) (XFin zb 0))).
  { unfold py_le. rewrite Na, Nb. destruct a, b; try discriminate; reflexivity. }
  assert (Heq : py_eq a b = xeq (XFin za 0) (XFin zb 0)).
  { unfold py_eq. rewrite Na, Nb. destruct a, b; try discriminate; reflexivity. }
  rewrite Hlt, Hle, Heq. unfold xlt, xle, xeq. rewrite xcompare_int.
  unfold Z.ltb, Z.leb. rewrite Z.eqb_compare.
  destruct (za ?= zb); repeat split.
Qed.

(** X2.  Between two vacancies whose salaries are [int]s the six methods
    answer as the order of the integers does, whatever the other
    attributes are: equal salaries make two vacancies equal. *)
Theorem compare_int_salaries (a b : Vacancies.t) (za zb : Z) :
  Vacancies.salary a = PInt za -> Vacancies.salary b = PInt zb ->
  Vacancies.lt a (Vacancies.Vacancy b) = Ok (Vacancies.Answer (za <? zb)) /\
  Vacancies.le a (Vacancies.Vacancy b) = Ok (Vacancies.Answer (za <=? zb)) /\
  Vacancies.eq a (Vacancies.Vacancy b) = Ok (Vacancies.Answer (za =? zb)) /\
  Vacancies.ne a (Vacancies.Vacancy b) = Ok (Vacancies.Answer (negb (za =? zb))) /\
  Vacancies.gt a (Vacancies.Vacancy b) = Ok (Vacancies.Answer (zb <? za)) /\
  Vacancies.ge a (Vacancies.Vacancy b) = Ok (Vacancies.Answer (zb <=? za)).
Proof.
  intros Ha Hb.
  destruct (py_compare_int (PInt za) (PInt zb) za zb eq_refl eq_refl)
    as [Hlt [Hle Heq]].
  destruct (py_compare_int (PInt zb) (PInt za) zb za eq_refl eq_refl)
    as [Hgt [Hge _]].
  unfold Vacancies.lt, Vacancies.le, Vacancies.eq, Vacancies.ne, Vacancies.gt,
    Vacancies.ge, py_ne, py_gt, py_ge.
  rewrite Ha, Hb, Hlt, Hle, Heq, Hgt, Hge. repeat split.
Qed.

(** [compare_int_salaries] at two vacancies that differ in everything
    but the salary. *)
Lemma compare_int_salaries_witness :
  Vacancies.lt (Vacancies.mk (PStr "a") (PStr "x") (PInt 5) (PStr "") PNone)
    (Vacancies.Vacancy (Vacancies.mk (PStr "b") (PStr "y") (PInt 5) (PStr "d") (PStr "1")))
  = Ok (Vacancies.Answer false) /\
  Vacancies.le (Vacancies.mk (PStr "a") (PStr "x") (PInt 5) (PStr "") PNone)
    (Vacancies.Vacancy (Vacancies.mk (PStr "b") (PStr "y") (PInt 5) (PStr "d") (PStr "1")))
  = Ok (Vacancies.Answer true) /\
  Vacancies.eq (Vacancies.mk (PStr "a") (PStr "x") (PInt 5) (PStr "") PNone)
    (Vacancies.Vacancy (Vacancies.mk (PStr "b") (PStr "y") (PInt 5) (PStr "d") (PStr "1")))
  = Ok (Vacancies.Answer true) /\
  Vacancies.ne (Vacancies.mk (PStr "a") (PStr "x") (PInt 5) (PStr "") PNone)
    (Vacancies.Vacancy (Vacancies.mk (PStr "b") (PStr "y") (PInt 5) (PStr "d") (PStr "1")))
  = Ok (Vacancies.Answer false) /\
  Vacancies.gt (Vacancies.mk (PStr "a") (PStr "x") (PInt 5) (PStr "") PNone)
    (Vacancies.Vacancy (Vacancies.mk (PStr "b") (PStr "y") (PInt 5) (PStr "d") (PStr "1")))
  = Ok (Vacancies.Answer false) /\
  Vacancies.ge (Vacancies.mk (PStr "a") (PStr "x") (PInt 5) (PStr "") PNone)
    (Vacancies.Vacancy (Vacancies.mk (PStr "b") (PStr "y") (PInt 5) (PStr "d") (PStr "1")))
  = Ok (Vacancies.Answer true).
Proof.
  exact (compare_int_salaries
           (Vacancies.mk (PStr "a") (PStr "x") (PInt 5) (PStr "") PNone)
           (Vacancies.mk (PStr "b") (PStr "y") (PInt 5) (PStr "d") (PStr "1"))
           5 5 eq_refl eq_refl).
Defined.

(** X3.  Between a vacancy whose salary is a number and one whose salary is a
    string, the [unspecified] one included, the four order methods raise
    [TypeError] in both directions; the two are unequal. *)
Theorem compare_number_with_string (a b : Vacancies.t) (s : string) :
  isinstance_int_float (Vacancies.salary a) = true ->
  Vacancies.salary b = PStr s ->
  Vacancies.lt a (Vacancies.Vacancy b) = Raise TypeError /\
  Vacancies.le a (Vacancies.Vacancy b) = Raise TypeError /\
  Vacancies.gt a (Vacancies.Vacancy b) = Raise TypeError /\
  Vacancies.ge a (Vacancies.Vacancy b) = Raise TypeError /\
  Vacancies.lt b (Vacancies.Vacancy a) = Raise TypeError /\
  Vacancies.le b (Vacancies.Vacancy a) = Raise TypeError /\
  Vacancies.gt b (Vacancies.Vacancy a) = Raise TypeError /\
  Vacancies.ge b (Vacancies.Vacancy a) = Raise TypeError /\
  Vacancies.eq a (Vacancies.Vacancy b) = Ok (Vacancies.Answer false) /\
  Vacancies.ne a (Vacancies.Vacancy b) = Ok (Vacancies.Answer true).
Proof.
  intros Ha Hb.
  unfold Vacancies.lt, Vacancies.le, Vacancies.eq, Vacancies.ne, Vacancies.gt,
    Vacancies.ge, py_ne, py_gt, py_ge.
  rewrite Hb. destruct (Vacancies.salary a); try discriminate Ha; repeat split.
Qed.

(** [compare_number_with_string] at a salary of 100000 against a salary
    that was not given. *)
Lemma compare_number_with_string_witness :
  Vacancies.lt (Vacancies.mk (PStr "a") PNone (PInt 100000) (PStr "") PNone)
    (Vacancies.Vacancy (Vacancies.mk (PStr "b") PNone Vacancies.unspecified (PStr "") PNone))
  = Raise TypeError.
Proof.
  exact (proj1 (compare_number_with_string
                  (Vacancies.mk (PStr "a") PNone (PInt 100000) (PStr "") PNone)
                  (Vacancies.mk (PStr "b") PNone Vacancies.unspecified (PStr "") PNone)
                  "Зарплата не указана" eq_refl eq_refl)).
Defined.

End ConstructedVacancies.

(** ** Reading stored vacancies back as objects *)

Section ReadBack.

(** The salary [cast_to_object_list] validates for an item. *)
Definition raw_salary (item : dict) : pyval := get_default item "salary" (PInt 0).

(** The salaries the validation lets through. *)
Definition acceptable (salary : pyval) : Prop :=
  not_given salary \/
  (isinstance_int_float salary = true /\ ~ negative_salary salary).

Lemma validation_data_acceptable (salary : pyval) :
  acceptable salary <-> exists s, Vacancies.validation_data salary = Ok s.
Proof.
  split.
  - intros [[-> | ->] | [Hnum Hneg]].
    + now exists Vacancies.unspecified.
    + now exists Vacancies.unspecified.
    + exists salary. now apply validation_data_number.
  - intros [s Hs]. apply validation_data_cases in Hs.
    destruct Hs as [[Hn _] | [_ [Hnum Hneg]]]; [now left | now right].
Qed.

Lemma validation_data_raises (salary : pyval) (e : exn) :
  Vacancies.validation_data salary = Raise e -> exists msg, e = ValueError msg.
Proof.
  destruct salary as [ | b | z | f | str].
  - discriminate.
  - now destruct b.
  - unfold Vacancies.validation_data; simpl.
    destruct (xlt (XFin z 0) (XFin 0 0)); [|discriminate].
    intros [= <-]. eexists. reflexivity.
  - unfold Vacancies.validation_data; simpl.
    destruct (xlt (xnum_of_float f) (XFin 0 0)); [|discriminate].
    intros [= <-]. eexists. reflexivity.
  - destruct str as [ | c str']; [discriminate|].
    intros [= <-]. eexists. reflexivity.
Qed.

Lemma cast_raises (l : list dict) (e : exn) :
  Vacancies.cast_to_object_list l = Raise e -> exists msg, e = ValueError msg.
Proof.
  induction l as [ | item rest IH]; [discriminate|].
  rewrite cast_cons.
  destruct (Vacancies.validation_data _) as [s | e'] eqn:Hs; simpl.
  - destruct (Vacancies.cast_to_object_list rest) as [objs | e'']; simpl;
      [discriminate|].
    intros [= <-]. now apply IH.
  - intros [= <-]. now apply validation_data_raises in Hs.
Qed.

Lemma cast_succeeds_iff (l : list dict) :
  (exists objs, Vacancies.cast_to_object_list l = Ok objs) <->
  Forall (fun item => acceptable (raw_salary item)) l.
Proof.
  induction l as [ | item rest IH].
  - split; [constructor | now exists []].
  - rewrite cast_cons. split.
    + intros [objs H].
      destruct (Vacancies.validation_data _) as [s | e] eqn:Hs;
        [|discriminate H]. simpl in H.
      destruct (Vacancies.cast_to_object_list rest) as [objs' | e];
        [|discriminate H].
      constructor.
      * apply validation_data_acceptable. now exists s.
      * apply IH. now exists objs'.
    + intros H. inversion H as [ | ? ? Hitem Hrest]; subst.
      apply validation_data_acceptable in Hitem. destruct Hitem as [s Hs].
      apply IH in Hrest. destruct Hrest as [objs' Hobjs].
      unfold raw_salary in Hs. rewrite Hs, Hobjs. simpl. eexists. reflexivity.
Qed.

(** X4.  The conversion is all or nothing: it returns a list, as long as the
    input, exactly when the salary of every item is acceptable (an item
    without a salary counts as 0); one item with any other salary makes it
    raise, and what it raises is always a [ValueError]. *)
Theorem cast_to_object_list_all_or_nothing (vacancies_list : list dict) :
  ((exists objs, Vacancies.cast_to_object_list vacancies_list = Ok objs) <->
   Forall (fun item => acceptable (raw_salary item)) vacancies_list) /\
  (forall objs, Vacancies.cast_to_object_list vacancies_list = Ok objs ->
     List.length objs = List.length vacancies_list) /\
  (forall e, Vacancies.cast_to_object_list vacancies_list = Raise e ->
     exists msg, e = ValueError msg).
Proof.
  split; [apply cast_succeeds_iff|]. split; [|apply cast_raises].
  induction vacancies_list as [ | item rest IH]; intros objs.
  - now intros [= <-].
  - rewrite cast_cons.
    destruct (Vacancies.validation_data _) as [s | e]; [|discriminate].
    simpl. destruct (Vacancies.cast_to_object_list rest) as [objs' | e];
      [|discriminate].
    intros [= <-]. simpl. now rewrite (IH objs' eq_refl).
Qed.

(** [cast_to_object_list_all_or_nothing] at two items: one without a
    salary and one with the salary [None]. *)
Lemma cast_to_object_list_all_or_nothing_witness :
  exists objs,
    Vacancies.cast_to_object_list [[("name", PStr "a")]; [("salary", PNone)]]
    = Ok objs.
Proof.
  apply (proj2 (proj1 (cast_to_object_list_all_or_nothing
                         [[("name", PStr "a")]; [("salary", PNone)]]))).
  constructor; [|constructor; [|constructor]].
  - right. split; [reflexivity|]. simpl. lia.
  - left. now left.
Defined.

Lemma fold_add_vacancy (vs : list Vacancies.t) (file : JSONSaver.file) :
  fold_left JSONSaver.add_vacancy vs file
  = (file ++ map JSONSaver.vacancy_dict vs)%list.
Proof.
  revert file. induction vs as [ | v rest IH]; intros file; simpl.
  - now rewrite app_nil_r.
  - rewrite IH. unfold JSONSaver.add_vacancy. now rewrite <- app_assoc.
Qed.

Lemma get_vacancies_all (file : JSONSaver.file) :
  JSONSaver.get_vacancies file [] = file.
Proof. induction file as [ | v rest IH]; simpl; [reflexivity | now rewrite IH]. Qed.

Lemma constructed_number_valid (v : Vacancies.t) :
  constructed v -> isinstance_int_float (Vacancies.salary v) = true ->
  Vacancies.validation_data (Vacancies.salary v) = Ok (Vacancies.salary v).
Proof.
  intros (name & link & salary & description & id & Hinit) Hnum.
  unfold Vacancies.init in Hinit.
  destruct (Vacancies.validation_data salary) as [s | e] eqn:Hs;
    [|discriminate Hinit].
  injection Hinit as <-. simpl in *.
  apply validation_data_cases in Hs.
  destruct Hs as [[_ ->] | [-> [_ Hneg]]]; [discriminate Hnum|].
  now apply validation_data_number.
Qed.

Lemma cast_app (l1 l2 : list dict) :
  Vacancies.cast_to_object_list (l1 ++ l2)%list
  = (objs1 <- Vacancies.cast_to_object_list l1 ;;
     objs2 <- Vacancies.cast_to_object_list l2 ;;
     Ok (objs1 ++ objs2)%list).
Proof.
  induction l1 as [ | item rest IH].
  - simpl. now destruct (Vacancies.cast_to_object_list l2).
  - change ((item :: rest) ++ l2)%list with (item :: (rest ++ l2))%list.
    rewrite !cast_cons, IH.
    destruct (Vacancies.validation_data _) as [s | e]; [|reflexivity].
    simpl. destruct (Vacancies.cast_to_object_list rest) as [objs1 | e];
      [|reflexivity].
    simpl. now destruct (Vacancies.cast_to_object_list l2).
Qed.

Lemma cast_vacancy_dicts (vs : list Vacancies.t) :
  Forall (fun v => constructed v /\ isinstance_int_float (Vacancies.salary v) = true)
         vs ->
  Vacancies.cast_to_object_list (map JSONSaver.vacancy_dict vs) = Ok vs.
Proof.
  induction 1 as [ | v rest [Hc Hnum] _ IH]; [reflexivity|].
  change (map JSONSaver.vacancy_dict (v :: rest))
    with (JSONSaver.vacancy_dict v :: map JSONSaver.vacancy_dict rest).
  rewrite cast_cons, IH.
  change (get_default (JSONSaver.vacancy_dict v) "salary" (PInt 0))
    with (Vacancies.salary v).
  rewrite (constructed_number_valid v Hc Hnum). simpl. now destruct v.
Qed.

(** X5.  Round trip through the file: when constructed vacancies whose
    salaries are numbers are appended one after the other to a file, and
    the file is read back with empty criteria, the conversion gives the
    objects the file gave before, followed by the same vacancies in the
    same order; appended to the empty file, they come back alone. *)
Theorem store_round_trip (file : JSONSaver.file) (objs vs : list Vacancies.t) :
  Vacancies.cast_to_object_list file = Ok objs ->
  Forall (fun v => constructed v /\ isinstance_int_float (Vacancies.salary v) = true)
         vs ->
  Vacancies.cast_to_object_list
    (JSONSaver.get_vacancies (fold_left JSONSaver.add_vacancy vs file) [])
  = Ok (objs ++ vs)%list.
Proof.
  intros Hfile Hvs.
  rewrite get_vacancies_all, fold_add_vacancy, cast_app, Hfile,
    (cast_vacancy_dicts vs Hvs).
  reflexivity.
Qed.

(** [store_round_trip] at the empty file and two vacancies, one with an
    [int] and one with a [float] salary. *)
Lemma store_round_trip_witness :
  Vacancies.cast_to_object_list
    (JSONSaver.get_vacancies
       (fold_left JSONSaver.add_vacancy
          [Vacancies.mk (PStr "a") (PStr "x") (PInt 100000) (PStr "") (PStr "1");
           Vacancies.mk (PStr "b") (PStr "y") (PFloat float_120000) (PStr "d") PNone]
          []) [])
  = Ok [Vacancies.mk (PStr "a") (PStr "x") (PInt 100000) (PStr "") (PStr "1");
        Vacancies.mk (PStr "b") (PStr "y") (PFloat float_120000) (PStr "d") PNone].
Proof.
  refine (store_round_trip [] []
            [Vacancies.mk (PStr "a") (PStr "x") (PInt 100000) (PStr "") (PStr "1");
             Vacancies.mk (PStr "b") (PStr "y") (PFloat float_120000) (PStr "d") PNone]
            eq_refl _).
  repeat constructor.
  - exists (PStr "a"), (PStr "x"), (PInt 100000), (PStr ""), (PStr "1"). reflexivity.
  - exists (PStr "b"), (PStr "y"), (PFloat float_120000), (PStr "d"), PNone.
    reflexivity.
Defined.

(** X6.  The round trip breaks on a salary that was not given: once a vacancy
    with the salary [unspecified] is in the file, whatever else is there,
    converting the file back raises [ValueError], because the string
    [unspecified] is itself not a salary the validation accepts. *)
Theorem unspecified_is_not_read_back (file : JSONSaver.file) (v : Vacancies.t) :
  Vacancies.salary v = Vacancies.unspecified ->
  In (JSONSaver.vacancy_dict v) file ->
  exists msg, Vacancies.cast_to_object_list file = Raise (ValueError msg).
Proof.
  intros Hs Hin.
  destruct (Vacancies.cast_to_object_list file) as [objs | e] eqn:Hcast.
  - exfalso.
    assert (Hall : Forall (fun item => acceptable (raw_salary item)) file).
    { apply (proj1 (cast_succeeds_iff file)). now exists objs. }
    apply (proj1 (Forall_forall _ _) Hall) in Hin.
    unfold raw_salary in Hin.
    change (get_default (JSONSaver.vacancy_dict v) "salary" (PInt 0))
      with (Vacancies.salary v) in Hin.
    rewrite Hs in Hin. destruct Hin as [[H | H] | [H _]]; discriminate H.
  - destruct (cast_raises _ _ Hcast) as [msg ->]. now exists msg.
Qed.

(** [unspecified_is_not_read_back] at a file of two vacancies, the second
    constructed with the salary [None]. *)
Lemma unspecified_is_not_read_back_witness :
  exists msg,
    Vacancies.cast_to_object_list
      [JSONSaver.vacancy_dict
         (Vacancies.mk (PStr "a") (PStr "x") (PInt 100000) (PStr "") (PStr "1"));
       JSONSaver.vacancy_dict
         (Vacancies.mk (PStr "b") (PStr "y") Vacancies.unspecified (PStr "") (PStr "2"))]
    = Raise (ValueError msg).
Proof.
  apply (unspecified_is_not_read_back
           [JSONSaver.vacancy_dict
              (Vacancies.mk (PStr "a") (PStr "x") (PInt 100000) (PStr "") (PStr "1"));
            JSONSaver.vacancy_dict
              (Vacancies.mk (PStr "b") (PStr "y") Vacancies.unspecified (PStr "")
                 (PStr "2"))]
           (Vacancies.mk (PStr "b") (PStr "y") Vacancies.unspecified (PStr "") (PStr "2"))).
  - reflexivity.
  - simpl. auto.
Defined.

End ReadBack.

(** ** The store: how the operations compose *)

Section StoreAlgebra.

Lemma filter_none {A : Type} (p : A -> bool) (l : list A) :
  Forall (fun x => p x = false) l -> filter p l = [].
Proof.
  induction 1 as [ | x rest Hx _ IH]; simpl; [reflexivity|].
  now rewrite Hx.
Qed.

Lemma filter_all {A : Type} (p : A -> bool) (l : list A) :
  Forall (fun x => p x = true) l -> filter p l = l.
Proof.
  induction 1 as [ | x rest Hx _ IH]; simpl; [reflexivity|].
  now rewrite Hx, IH.
Qed.

Lemma filter_filter {A : Type} (p q : A -> bool) (l : list A) :
  filter q (filter p l) = filter (fun x => p x && q x) l.
Proof.
  induction l as [ | x rest IH]; simpl; [reflexivity|].
  destruct (p x); simpl; [destruct (q x)|]; now rewrite IH.
Qed.

Lemma meets_app (c1 c2 : dict) (vacancy : dict) :
  meets (c1 ++ c2)%list vacancy = meets c1 vacancy && meets c2 vacancy.
Proof. unfold meets. apply forallb_app. Qed.

(** X7.  After [delete_vacancy] with an id the query for that id finds
    nothing, and deleting the same id again changes nothing. *)
Theorem delete_then_get (file : JSONSaver.file) (vacancy_id : pyval) :
  JSONSaver.get_vacancies (JSONSaver.delete_vacancy file vacancy_id)
                          [("id", vacancy_id)] = [] /\
  JSONSaver.delete_vacancy (JSONSaver.delete_vacancy file vacancy_id) vacancy_id
  = JSONSaver.delete_vacancy file vacancy_id.
Proof.
  rewrite get_vacancies_filter, !delete_vacancy_filter, !filter_filter. split.
  - apply filter_none. apply Forall_forall. intros v _.
    unfold other_id, meets. simpl.
    now destruct (py_eq (get v "id") vacancy_id).
  - apply filter_ext. intros v. now destruct (other_id vacancy_id v).
Qed.

(** X8.  Deleting the id of a vacancy right after appending it removes the
    new entry together with every older entry that has the same id; the
    file is back to what it was when no older entry had that id. *)
Theorem add_then_delete (file : JSONSaver.file) (vacancy_data : Vacancies.t) :
  py_eq (Vacancies.id vacancy_data) (Vacancies.id vacancy_data) = true ->
  JSONSaver.delete_vacancy (JSONSaver.add_vacancy file vacancy_data)
                           (Vacancies.id vacancy_data)
  = JSONSaver.delete_vacancy file (Vacancies.id vacancy_data) /\
  (Forall (fun vacancy =>
             py_eq (get vacancy "id") (Vacancies.id vacancy_data) = false) file ->
   JSONSaver.delete_vacancy (JSONSaver.add_vacancy file vacancy_data)
                            (Vacancies.id vacancy_data)
   = file).
Proof.
  intros Hid.
  assert (H : JSONSaver.delete_vacancy (JSONSaver.add_vacancy file vacancy_data)
                (Vacancies.id vacancy_data)
              = JSONSaver.delete_vacancy file (Vacancies.id vacancy_data)).
  { rewrite !delete_vacancy_filter. unfold JSONSaver.add_vacancy.
    rewrite filter_app. cbn [filter]. unfold other_id at 2.
    rewrite get_vacancy_dict_id, Hid. simpl. apply app_nil_r. }
  split; [exact H|].
  intros Hnone. rewrite H, delete_vacancy_filter. apply filter_all.
  apply Forall_forall. intros v Hv. unfold other_id.
  now rewrite (proj1 (Forall_forall _ _) Hnone v Hv).
Qed.

(** [add_then_delete] at a file of two entries with other ids. *)
Lemma add_then_delete_witness :
  JSONSaver.delete_vacancy
    (JSONSaver.add_vacancy [entry "a" (PInt 1); entry "b" (PInt 2)]
       (Vacancies.mk (PStr "Dev") (PStr "url") (PInt 3) (PStr "") (PStr "c")))
    (PStr "c")
  = [entry "a" (PInt 1); entry "b" (PInt 2)].
Proof.
  apply (proj2 (add_then_delete [entry "a" (PInt 1); entry "b" (PInt 2)]
                  (Vacancies.mk (PStr "Dev") (PStr "url") (PInt 3) (PStr "") (PStr "c"))
                  eq_refl)).
  repeat constructor.
Defined.

(** X9.  Two deletions can be done in either order. *)
Theorem delete_commutes (file : JSONSaver.file) (id1 id2 : pyval) :
  JSONSaver.delete_vacancy (JSONSaver.delete_vacancy file id1) id2
  = JSONSaver.delete_vacancy (JSONSaver.delete_vacancy file id2) id1.
Proof.
  rewrite !delete_vacancy_filter, !filter_filter.
  apply filter_ext. intros v. apply andb_comm.
Qed.

(** X10.  Querying the answer of a query is one query with both criteria, so
    the order in which criteria are given does not matter. *)
Theorem get_vacancies_compose (file : JSONSaver.file) (criteria1 criteria2 : dict) :
  JSONSaver.get_vacancies (JSONSaver.get_vacancies file criteria1) criteria2
  = JSONSaver.get_vacancies file (criteria1 ++ criteria2)%list /\
  JSONSaver.get_vacancies file (criteria1 ++ criteria2)%list
  = JSONSaver.get_vacancies file (criteria2 ++ criteria1)%list.
Proof.
  rewrite !get_vacancies_filter, filter_filter. split.
  - apply filter_ext. intros v. now rewrite meets_app.
  - apply filter_ext. intros v. rewrite !meets_app. apply andb_comm.
Qed.

(** X11.  Appending leaves the answers for the entries already stored in place:
    the answer after [add_vacancy] is the old answer, followed by the new
    dictionary when it meets the criteria. *)
Theorem add_vacancy_extends_answers (file : JSONSaver.file)
    (vacancy_data : Vacancies.t) (criteria : dict) :
  JSONSaver.get_vacancies (JSONSaver.add_vacancy file vacancy_data) criteria
  = (JSONSaver.get_vacancies file criteria
     ++ (if meets criteria (JSONSaver.vacancy_dict vacancy_data)
         then [JSONSaver.vacancy_dict vacancy_data] else []))%list.
Proof.
  rewrite !get_vacancies_filter. unfold JSONSaver.add_vacancy.
  rewrite filter_app. simpl.
  now destruct (meets criteria (JSONSaver.vacancy_dict vacancy_data)).
Qed.

End StoreAlgebra.

(** ** Sorting entries whose salaries can be compared *)

From Stdlib Require Import Sorted Permutation.

Section SortInts.

(** The key [sort_vacancies] sorts by, and the integer it stands for
    when it is an [int]. *)
Definition sort_key (v : dict) : pyval := get_default v "salary" (PInt 0).

Definition salary_number (v : dict) : Z :=
  match int_value (sort_key v) with
  | Some z => z
  | None => 0
  end.

Definition int_salaried (v : dict) : Prop := isinstance_int (sort_key v) = true.

Lemma int_salaried_value (v : dict) :
  int_salaried v -> int_value (sort_key v) = Some (salary_number v).
Proof.
  unfold int_salaried, salary_number.
  now destruct (sort_key v).
Qed.

(** Where the insertion puts an entry when all keys are [int]s. *)
Fixpoint place (x : dict) (l : list dict) : list dict :=
  match l with
  | [] => [x]
  | y :: ys =>
      if salary_number x <? salary_number y then x :: y :: ys
      else y :: place x ys
  end.

Lemma insert_place (x : dict) (l : list dict) :
  int_salaried x -> Forall int_salaried l ->
  insert sort_key x l = Ok (place x l).
Proof.
  intros Hx. induction 1 as [ | y ys Hy _ IH]; simpl; [reflexivity|].
  destruct (py_compare_int _ _ _ _ (int_salaried_value x Hx)
              (int_salaried_value y Hy)) as [Hlt _].
  rewrite Hlt. simpl.
  destruct (salary_number x <? salary_number y); [reflexivity|].
  now rewrite IH.
Qed.

Lemma place_perm (x : dict) (l : list dict) : Permutation (x :: l) (place x l).
Proof.
  induction l as [ | y ys IH]; simpl; [apply Permutation_refl|].
  destruct (salary_number x <? salary_number y); [apply Permutation_refl|].
  apply perm_trans with (y :: x :: ys); [apply perm_swap|].
  now apply perm_skip.
Qed.

Lemma fold_insert_place (l acc : list dict) :
  Forall int_salaried l -> Forall int_salaried acc ->
  fold_left (fun acc x => a <- acc ;; insert sort_key x a) l (Ok acc)
  = Ok (fold_left (fun a x => place x a) l acc).
Proof.
  intros Hl. revert acc. induction Hl as [ | x xs Hx _ IH]; intros acc Hacc;
    simpl; [reflexivity|].
  rewrite (insert_place x acc Hx Hacc). apply IH.
  apply (Permutation_Forall (place_perm x acc)). now constructor.
Qed.

Definition ascending (a b : dict) : Prop := salary_number a <= salary_number b.
Definition descending (a b : dict) : Prop := salary_number b <= salary_number a.

(** The entries with a given salary, in the order they have in a list. *)
Definition with_salary (z : Z) (l : list dict) : list dict :=
  filter (fun v => salary_number v =? z) l.

Lemma place_sorted (x : dict) (l : list dict) :
  StronglySorted ascending l -> StronglySorted ascending (place x l).
Proof.
  induction 1 as [ | y ys Hs IH Hy]; simpl.
  - constructor; constructor.
  - destruct (Z.ltb_spec (salary_number x) (salary_number y)) as [Hlt | Hge].
    + constructor; [now constructor|].
      constructor; [unfold ascending; lia|].
      apply Forall_forall. intros v Hv.
      pose proof (proj1 (Forall_forall _ _) Hy v Hv) as Hyv.
      unfold ascending in *. lia.
    + constructor; [exact IH|].
      apply (Permutation_Forall (place_perm x ys)).
      constructor; [exact Hge | exact Hy].
Qed.

Lemma place_with_salary (z : Z) (x : dict) (l : list dict) :
  StronglySorted ascending l ->
  with_salary z (place x l)
  = (with_salary z l ++ (if salary_number x =? z then [x] else []))%list.
Proof.
  unfold with_salary.
  induction 1 as [ | y ys Hs IH Hy]; simpl.
  - now destruct (salary_number x =? z).
  - destruct (Z.ltb_spec (salary_number x) (salary_number y)) as [Hlt | Hge].
    + cbn [filter].
      destruct (Z.eqb_spec (salary_number x) z) as [Hxz | Hxz];
        [|now rewrite app_nil_r].
      assert (Hy' : (salary_number y =? z) = false) by (apply Z.eqb_neq; lia).
      rewrite Hy'. rewrite (filter_none _ ys); [reflexivity|].
      apply Forall_forall. intros v Hv.
      pose proof (proj1 (Forall_forall _ _) Hy v Hv) as Hyv.
      unfold ascending in Hyv. apply Z.eqb_neq. lia.
    + cbn [filter]. rewrite IH.
      now destruct (salary_number y =? z).
Qed.

Lemma fold_place (l acc : list dict) :
  StronglySorted ascending acc ->
  Permutation (acc ++ l) (fold_left (fun a x => place x a) l acc) /\
  StronglySorted ascending (fold_left (fun a x => place x a) l acc) /\
  forall z, with_salary z (fold_left (fun a x => place x a) l acc)
            = (with_salary z acc ++ with_salary z l)%list.
Proof.
  revert acc. induction l as [ | x xs IH]; intros acc Hacc; simpl.
  - rewrite app_nil_r. repeat split; auto.
    intros z. now rewrite app_nil_r.
  - destruct (IH (place x acc) (place_sorted x acc Hacc)) as [Hp [Hs Hw]].
    split; [|split; [exact Hs|]].
    + apply perm_trans with (place x acc ++ xs)%list; [|exact Hp].
      apply perm_trans with ((x :: acc) ++ xs)%list.
      * simpl. apply Permutation_sym, Permutation_middle.
      * apply Permutation_app_tail, place_perm.
    + intros z. rewrite Hw, (place_with_salary z x acc Hacc).
      unfold with_salary at 4. cbn [filter].
      rewrite <- app_assoc. f_equal.
      now destruct (salary_number x =? z).
Qed.

Lemma sorted_snoc (R : dict -> dict -> Prop) (l : list dict) (x : dict) :
  StronglySorted R l -> Forall (fun a => R a x) l ->
  StronglySorted R (l ++ [x]).
Proof.
  induction 1 as [ | y ys Hs IH Hy]; intros Hx; simpl.
  - constructor; constructor.
  - inversion Hx as [ | ? ? Hyx Hrest]; subst.
    constructor; [now apply IH|].
    apply Forall_app. split; [exact Hy | now constructor].
Qed.

Lemma sorted_rev (l : list dict) :
  StronglySorted ascending l -> StronglySorted descending (rev l).
Proof.
  induction 1 as [ | y ys Hs IH Hy]; simpl; [constructor|].
  apply sorted_snoc; [exact IH|].
  apply Forall_forall. intros v Hv. apply in_rev in Hv.
  exact (proj1 (Forall_forall _ _) Hy v Hv).
Qed.

Lemma sort_vacancies_ints (vacancies : list dict) :
  Forall int_salaried vacancies ->
  exists sorted_vacancies,
    user_interaction.sort_vacancies vacancies = Ok sorted_vacancies /\
    Permutation vacancies sorted_vacancies /\
    StronglySorted descending sorted_vacancies /\
    forall z, with_salary z sorted_vacancies = with_salary z vacancies.
Proof.
  intros Hall.
  assert (Hrev : Forall int_salaried (rev vacancies)).
  { apply Forall_forall. intros v Hv. apply in_rev in Hv.
    exact (proj1 (Forall_forall _ _) Hall v Hv). }
  destruct (fold_place (rev vacancies) [] (SSorted_nil _)) as [Hp [Hs Hw]].
  exists (rev (fold_left (fun a x => place x a) (rev vacancies) [])).
  split; [|split; [|split]].
  - unfold user_interaction.sort_vacancies, sorted, sort_ascending.
    fold sort_key.
    now rewrite (fold_insert_place (rev vacancies) [] Hrev (Forall_nil _)).
  - apply perm_trans with (rev vacancies); [apply Permutation_rev|].
    apply perm_trans with (fold_left (fun a x => place x a) (rev vacancies) []);
      [exact Hp | apply Permutation_rev].
  - now apply sorted_rev.
  - intros z. unfold with_salary in *. rewrite filter_rev, Hw. simpl.
    rewrite filter_rev. apply rev_involutive.
Qed.

(** X12.  On entries whose salaries are all [int]s (a missing salary counts as
    0) [sort_vacancies] does not fail, and what it returns is the input
    rearranged, in descending order of salary, with the entries of equal
    salary in the order they had. *)
Theorem sort_vacancies_descending_stable (vacancies : list dict) :
  Forall int_salaried vacancies ->
  exists sorted_vacancies,
    user_interaction.sort_vacancies vacancies = Ok sorted_vacancies /\
    Permutation vacancies sorted_vacancies /\
    StronglySorted descending sorted_vacancies /\
    forall z, with_salary z sorted_vacancies = with_salary z vacancies.
Proof. exact (sort_vacancies_ints vacancies). Qed.

(** [sort_vacancies_descending_stable] at four entries, one of them
    without a salary. *)
Lemma sort_vacancies_descending_stable_witness :
  exists sorted_vacancies,
    user_interaction.sort_vacancies
      [entry "a" (PInt 50000); [("name", PStr "b")]; entry "c" (PInt 90000);
       entry "d" (PInt 50000)]
    = Ok sorted_vacancies /\
    Permutation
      [entry "a" (PInt 50000); [("name", PStr "b")]; entry "c" (PInt 90000);
       entry "d" (PInt 50000)]
      sorted_vacancies /\
    StronglySorted descending sorted_vacancies /\
    forall z,
      with_salary z sorted_vacancies
      = with_salary z
          [entry "a" (PInt 50000); [("name", PStr "b")]; entry "c" (PInt 90000);
           entry "d" (PInt 50000)].
Proof.
  apply (sort_vacancies_descending_stable
           [entry "a" (PInt 50000); [("name", PStr "b")]; entry "c" (PInt 90000);
            entry "d" (PInt 50000)]).
  repeat (constructor; [reflexivity|]). constructor.
Defined.

Lemma string_ltb_irrefl (s : string) : String.ltb s s = false.
Proof.
  unfold String.ltb. pose proof (String.compare_antisym s s) as H.
  destruct (String.compare s s); try reflexivity. discriminate H.
Qed.

Lemma insert_same_string (s : string) (x : dict) (l : list dict) :
  sort_key x = PStr s -> Forall (fun v => sort_key v = PStr s) l ->
  insert sort_key x l = Ok (l ++ [x])%list.
Proof.
  intros Hx. induction 1 as [ | y ys Hy _ IH]; simpl; [reflexivity|].
  rewrite Hx, Hy. simpl. rewrite string_ltb_irrefl. simpl.
  fold (insert sort_key x ys). now rewrite IH.
Qed.

Lemma fold_insert_same_string (s : string) (l acc : list dict) :
  Forall (fun v => sort_key v = PStr s) l ->
  Forall (fun v => sort_key v = PStr s) acc ->
  fold_left (fun acc x => a <- acc ;; insert sort_key x a) l (Ok acc)
  = Ok (acc ++ l)%list.
Proof.
  intros Hl. revert acc. induction Hl as [ | x xs Hx _ IH]; intros acc Hacc; simpl.
  - now rewrite app_nil_r.
  - rewrite (insert_same_string s x acc Hx Hacc), IH.
    + now rewrite <- app_assoc.
    + apply Forall_app. split; [exact Hacc | now constructor].
Qed.

(** X13.  Entries whose salaries are all the same string, as when no entry has
    a salary and all carry [unspecified], are sorted without an exception
    and come back in the order they had. *)
Theorem sort_vacancies_same_string (vacancies : list dict) (s : string) :
  Forall (fun v => sort_key v = PStr s) vacancies ->
  user_interaction.sort_vacancies vacancies = Ok vacancies.
Proof.
  intros Hall.
  unfold user_interaction.sort_vacancies, sorted, sort_ascending. fold sort_key.
  rewrite (fold_insert_same_string s (rev vacancies) []).
  - simpl. now rewrite rev_involutive.
  - apply Forall_forall. intros v Hv. apply in_rev in Hv.
    exact (proj1 (Forall_forall _ _) Hall v Hv).
  - constructor.
Qed.

(** [sort_vacancies_same_string] at three entries without salaries. *)
Lemma sort_vacancies_same_string_witness :
  user_interaction.sort_vacancies
    [entry "b" Vacancies.unspecified; entry "c" Vacancies.unspecified;
     entry "a" Vacancies.unspecified]
  = Ok [entry "b" Vacancies.unspecified; entry "c" Vacancies.unspecified;
        entry "a" Vacancies.unspecified].
Proof.
  apply (sort_vacancies_same_string
           [entry "b" Vacancies.unspecified; entry "c" Vacancies.unspecified;
            entry "a" Vacancies.unspecified]
           "Зарплата не указана").
  repeat (constructor; [reflexivity|]). constructor.
Defined.

End SortInts.

(** ** The stages of the pipeline, alone and in sequence *)

Section Pipeline.

Variable lower : string -> string.

Lemma any_word_no_text (vacancy : dict) (word : string) (rest : list string) :
  description_text vacancy = None ->
  user_interaction.any_word lower vacancy (word :: rest) = Raise AttributeError.
Proof.
  unfold description_text. simpl.
  now destruct (get_default vacancy "description" (PStr "")).
Qed.

(** X14.  With at least one keyword, an entry whose description is not text
    ([None], a number) makes [filter_vacancies] raise [AttributeError],
    wherever the entry is in the list and whatever the others match. *)
Theorem filter_vacancies_needs_text
    (vacancies : list dict) (word : string) (rest : list string) (v : dict) :
  In v vacancies -> description_text v = None ->
  user_interaction.filter_vacancies lower vacancies (word :: rest)
  = Raise AttributeError.
Proof.
  intros Hin Hv. unfold user_interaction.filter_vacancies.
  induction vacancies as [ | x xs IH]; [contradiction|].
  cbn [filterM].
  destruct (description_text x) as [text | ] eqn:Hx.
  - rewrite (any_word_has_keyword lower x (word :: rest) text Hx).
    destruct Hin as [-> | Hin]; [congruence|].
    cbn [bind]. now rewrite (IH Hin).
  - now rewrite (any_word_no_text x word rest Hx).
Qed.

Lemma split_cons (sep : ascii) (s : string) : exists h t, split sep s = h :: t.
Proof.
  induction s as [ | c r [h [t IH]]]; simpl.
  - now exists "", [].
  - destruct (Ascii.eqb c sep).
    + now exists "", (split sep r).
    + rewrite IH. now exists (String c h), t.
Qed.

(** X15.  Ranges that are not two bounds.  A range without a dash raises
    [ValueError]; so does every range that begins with a dash, which is
    why a bound cannot be negative; and a range whose bounds are the wrong
    way round is no error but keeps nothing. *)
Theorem get_vacancies_by_salary_edges (vacancies : list dict) :
  (forall range : string, no_dash range -> range <> "" ->
     exists msg,
       user_interaction.get_vacancies_by_salary vacancies (Some range)
       = Raise (ValueError msg)) /\
  (forall rest : string,
     user_interaction.get_vacancies_by_salary vacancies (Some (String "-" rest))
     = Raise invalid_literal) /\
  (forall (range : string) (lo hi : Z),
     unpack2_int (split "-" range) = Ok (lo, hi) -> hi < lo ->
     user_interaction.get_vacancies_by_salary vacancies (Some range) = Ok []).
Proof.
  split; [|split].
  - intros range Hdash Hne. unfold user_interaction.get_vacancies_by_salary.
    destruct range as [ | c r]; [congruence|].
    rewrite (split_no_dash _ Hdash). cbn [unpack2_int].
    destruct (int (String c r)) as [n | e] eqn:Hint; simpl.
    + eexists. reflexivity.
    + rewrite (int_raises _ _ Hint). eexists. reflexivity.
  - intros rest. unfold user_interaction.get_vacancies_by_salary.
    cbn [split]. change (Ascii.eqb "-" "-") with true. cbn iota.
    destruct (split_cons "-" rest) as [h [t ->]]. reflexivity.
  - intros range lo hi Hparse Hlt.
    rewrite (get_vacancies_by_salary_parsed vacancies range lo hi Hparse).
    f_equal. apply filter_none. apply Forall_forall. intros v _.
    unfold salary_within.
    destruct (get v "salary") as [ | b | n | f | s]; try reflexivity.
    + apply andb_false_iff.
      destruct (Z.leb_spec lo (Z.b2z b)); [right; apply Z.leb_gt; lia | now left].
    + apply andb_false_iff.
      destruct (Z.leb_spec lo n); [right; apply Z.leb_gt; lia | now left].
Qed.

(** [get_vacancies_by_salary_edges] at the ranges "100000", "-5-10" and
    "150000-100000". *)
Lemma get_vacancies_by_salary_edges_witness :
  (exists msg,
     user_interaction.get_vacancies_by_salary [entry "a" (PInt 120000)] (Some "100000")
     = Raise (ValueError msg)) /\
  user_interaction.get_vacancies_by_salary [entry "a" (PInt 120000)] (Some "-5-10")
  = Raise invalid_literal /\
  user_interaction.get_vacancies_by_salary [entry "a" (PInt 120000)]
    (Some "150000-100000")
  = Ok [].
Proof.
  split; [|split].
  - apply (proj1 (get_vacancies_by_salary_edges [entry "a" (PInt 120000)])).
    + simpl. repeat split; discriminate.
    + discriminate.
  - apply (proj1 (proj2 (get_vacancies_by_salary_edges [entry "a" (PInt 120000)]))).
  - apply (proj2 (proj2 (get_vacancies_by_salary_edges [entry "a" (PInt 120000)]))
             "150000-100000" 150000 100000).
    + reflexivity.
    + lia.
Defined.

Lemma salary_within_int_salaried (lo hi : Z) (v : dict) :
  salary_within lo hi v = true -> int_salaried v.
Proof.
  unfold salary_within, int_salaried, sort_key, get, get_default.
  destruct (lookup v "salary") as [[ | b | n | f | s] | ]; try discriminate;
    reflexivity.
Qed.

(** X16.  With textual descriptions and a range that reads as two integers the
    four stages in sequence never fail: the range filter has removed every
    entry the sort cannot compare.  The result is a slice of the entries
    that have a keyword and a salary within the bounds, put in descending
    order of salary. *)
Theorem rank_with_range (vacancies_list : list dict) (filter_words : list string)
    (salary_range : string) (lo hi top_n : Z) :
  Forall (fun vacancy => description_text vacancy <> None) vacancies_list ->
  unpack2_int (split "-" salary_range) = Ok (lo, hi) ->
  exists sorted_vacancies,
    user_interaction.rank lower vacancies_list filter_words salary_range top_n
    = Ok (user_interaction.get_top_vacancies sorted_vacancies top_n) /\
    Permutation
      (filter (salary_within lo hi)
              (filter (has_keyword lower filter_words) vacancies_list))
      sorted_vacancies /\
    StronglySorted descending sorted_vacancies.
Proof.
  intros Htext Hparse. unfold user_interaction.rank.
  rewrite (filter_vacancies_keeps_matches lower _ _ Htext). cbn [bind].
  rewrite (get_vacancies_by_salary_parsed _ _ lo hi Hparse). cbn [bind].
  destruct (sort_vacancies_ints
              (filter (salary_within lo hi)
                      (filter (has_keyword lower filter_words) vacancies_list)))
    as [sorted_vacancies [Hsort [Hperm [Hdesc _]]]].
  - apply Forall_forall. intros v Hv. apply filter_In in Hv.
    now apply (salary_within_int_salaried lo hi).
  - exists sorted_vacancies. rewrite Hsort. cbn [bind]. auto.
Qed.

(** X17.  Without a range nothing removes the entries the sort cannot compare:
    when two entries that have a keyword carry a number and the string
    [unspecified] as salaries, the stages in sequence raise [TypeError]. *)
Theorem rank_without_range_raises (vacancies_list : list dict)
    (filter_words : list string) (top_n : Z) (v w : dict) :
  Forall (fun vacancy => description_text vacancy <> None) vacancies_list ->
  In v vacancies_list -> In w vacancies_list ->
  has_keyword lower filter_words v = true ->
  has_keyword lower filter_words w = true ->
  isinstance_int_float (sort_key v) = true ->
  sort_key w = Vacancies.unspecified ->
  user_interaction.rank lower vacancies_list filter_words "" top_n = Raise TypeError.
Proof.
  intros Htext Hv Hw Hkv Hkw Hnum Hstr. unfold user_interaction.rank.
  rewrite (filter_vacancies_keeps_matches lower _ _ Htext). cbn [bind].
  cbn [user_interaction.get_vacancies_by_salary bind].
  unfold user_interaction.sort_vacancies.
  rewrite (sorted_mixed_raises (fun v => get_default v "salary" (PInt 0)) true _ v w).
  - reflexivity.
  - apply filter_In. now split.
  - apply filter_In. now split.
  - exact Hnum.
  - unfold sort_key in Hstr. rewrite Hstr. eexists. reflexivity.
Qed.

End Pipeline.

(** [filter_vacancies_needs_text] at a list whose second entry has the
    description [None]. *)
Lemma filter_vacancies_needs_text_witness :
  user_interaction.filter_vacancies lower_ascii
    [[("description", PStr "Python")]; [("description", PNone)]] ["python"]
  = Raise AttributeError.
Proof.
  apply (filter_vacancies_needs_text lower_ascii
           [[("description", PStr "Python")]; [("description", PNone)]]
           "python" [] [("description", PNone)]).
  - simpl. auto.
  - reflexivity.
Defined.

(** A stored entry with a description. *)
Definition described (name : string) (salary : pyval) (description : string) : dict :=
  [("name", PStr name); ("link", PStr "https://hh.ru"); ("salary", salary);
   ("description", PStr description); ("id", PStr name)].

(** The stages on three entries: only the second has the keyword, and
    its salary is within the range. *)
Example rank_example :
  user_interaction.rank lower_ascii
    [described "a" (PInt 200000) "needs Go";
     described "b" (PInt 120000) "needs Python and Go";
     described "c" Vacancies.unspecified "needs Rust"]
    ["python"] "100000-250000" 1
  = Ok [described "b" (PInt 120000) "needs Python and Go"].
Proof. reflexivity. Qed.

(** [rank_with_range] at these entries, for the keyword "go". *)
Lemma rank_with_range_witness :
  exists sorted_vacancies,
    user_interaction.rank lower_ascii
      [described "a" (PInt 200000) "needs Go";
       described "b" (PInt 120000) "needs Python and Go";
       described "c" Vacancies.unspecified "needs Rust"]
      ["go"] "100000-250000" 1
    = Ok (user_interaction.get_top_vacancies sorted_vacancies 1) /\
    Permutation
      (filter (salary_within 100000 250000)
         (filter (has_keyword lower_ascii ["go"])
            [described "a" (PInt 200000) "needs Go";
             described "b" (PInt 120000) "needs Python and Go";
             described "c" Vacancies.unspecified "needs Rust"]))
      sorted_vacancies /\
    StronglySorted descending sorted_vacancies.
Proof.
  apply (rank_with_range lower_ascii
           [described "a" (PInt 200000) "needs Go";
            described "b" (PInt 120000) "needs Python and Go";
            described "c" Vacancies.unspecified "needs Rust"]
           ["go"] "100000-250000" 100000 250000 1).
  - repeat (constructor; [discriminate|]). constructor.
  - reflexivity.
Defined.

(** [rank_without_range_raises] at a salary of 200000 and a salary that
    was not given, both entries mentioning Go. *)
Lemma rank_without_range_raises_witness :
  user_interaction.rank lower_ascii
    [described "a" (PInt 200000) "needs Go";
     described "c" Vacancies.unspecified "Go or Rust"]
    ["go"] "" 1
  = Raise TypeError.
Proof.
  apply (rank_without_range_raises lower_ascii
           [described "a" (PInt 200000) "needs Go";
            described "c" Vacancies.unspecified "Go or Rust"]
           ["go"] 1
           (described "a" (PInt 200000) "needs Go")
           (described "c" Vacancies.unspecified "Go or Rust")).
  - repeat (constructor; [discriminate|]). constructor.
  - simpl. auto.
  - simpl. auto.
  - reflexivity.
  - reflexivity.
  - reflexivity.
  - reflexivity.
Defined.

(** ** Asking for the count, and the whole of [user_interaction] *)

Section Asking.

Lemma read_top_n_raises (line : string) (e : exn) :
  user_interaction.read_top_n line = Raise e -> exists msg, e = ValueError msg.
Proof.
  unfold user_interaction.read_top_n.
  destruct (int line) as [n | e'] eqn:Hint; simpl.
  - destruct (n <=? 0); [|discriminate]. intros [= <-]. eexists. reflexivity.
  - intros [= <-]. rewrite (int_raises _ _ Hint). eexists. reflexivity.
Qed.

(** X18.  The question is asked again after every line that is no positive
    integer, and the first line that is one gives the count; when no line
    is one, the loop is still asking when the input ends. *)
Theorem ask_top_n_first_valid (bad : list string) :
  Forall (fun line => exists e, user_interaction.read_top_n line = Raise e) bad ->
  user_interaction.ask_top_n bad = None /\
  (forall (good : string) (rest : list string) (top_n : Z),
     user_interaction.read_top_n good = Ok top_n ->
     user_interaction.ask_top_n (bad ++ good :: rest)%list = Some top_n).
Proof.
  induction 1 as [ | line lines [e He] _ [IHnone IHsome]]; simpl.
  - split; [reflexivity|]. intros good rest top_n Hgood. now rewrite Hgood.
  - rewrite He. destruct (read_top_n_raises _ _ He) as [msg ->].
    split; [exact IHnone | exact IHsome].
Qed.

(** [ask_top_n_first_valid] at the lines "abc", "0", "-3", "", "5". *)
Lemma ask_top_n_first_valid_witness :
  user_interaction.ask_top_n ["abc"; "0"; "-3"; ""; "5"; "7"] = Some 5.
Proof.
  assert (Hbad : Forall (fun line => exists e, user_interaction.read_top_n line = Raise e)
                        ["abc"; "0"; "-3"; ""]).
  { repeat (constructor; [eexists; reflexivity|]). constructor. }
  apply (proj2 (ask_top_n_first_valid ["abc"; "0"; "-3"; ""] Hbad) "5" ["7"] 5).
  reflexivity.
Defined.

(** A count typed in the digits of another script is a count. *)
Example ask_top_n_other_script :
  user_interaction.ask_top_n ["٥"; "3"] = Some 5.
Proof. reflexivity. Qed.

Lemma get_vacancies_missing_key (file : JSONSaver.file) (key : string) (value : pyval)
    (criteria : dict) :
  Forall (fun vacancy => lookup vacancy key = None) file ->
  py_eq PNone value = false ->
  JSONSaver.get_vacancies file ((key, value) :: criteria) = [].
Proof.
  intros Hfile Hvalue. rewrite get_vacancies_filter. apply filter_none.
  apply Forall_forall. intros v Hv. unfold meets. simpl.
  unfold get, get_default.
  rewrite (proj1 (Forall_forall _ _) Hfile v Hv), Hvalue. reflexivity.
Qed.

Lemma rank_nothing (lower : string -> string) (filter_words : list string)
    (salary_range : string) (top_n : Z) (r : list dict) :
  user_interaction.rank lower [] filter_words salary_range top_n = Ok r -> r = [].
Proof.
  unfold user_interaction.rank. cbn [user_interaction.filter_vacancies filterM bind].
  destruct (user_interaction.get_vacancies_by_salary [] (Some salary_range))
    as [ranged | e] eqn:Hr; [|discriminate].
  assert (ranged = []) as ->.
  { unfold user_interaction.get_vacancies_by_salary in Hr.
    destruct salary_range as [ | c s]; [now injection Hr|].
    destruct (unpack2_int _) as [[lo hi] | e]; [|discriminate Hr].
    now injection Hr. }
  cbn. intros [= <-].
  unfold user_interaction.get_top_vacancies, slice_to.
  destruct (0 <=? top_n); apply firstn_nil.
Qed.

(** X19.  [user_interaction] does not get as far as a list of top
    vacancies: opening the store raises [TypeError], whatever was typed
    and whatever is on disk, because [JSONSaver] leaves two abstract
    methods without a definition.  And the query it would make finds
    nothing in a file that holds what [add_vacancy] wrote, for
    [add_vacancy] writes no field ["text"]: the answer is empty, and the
    stages on it give nothing. *)
Theorem top_vacancies_finds_nothing (lower : string -> string)
    (on_disk : option JSONSaver.file) (vs : list Vacancies.t)
    (search_query : string) (top_n : Z) (filter_words : list string)
    (salary_range : string) :
  user_interaction.top_vacancies lower on_disk search_query top_n filter_words
    salary_range
  = Raise TypeError /\
  JSONSaver.get_vacancies (fold_left JSONSaver.add_vacancy vs [])
                          [("text", PStr search_query)] = [] /\
  (forall r,
     user_interaction.rank lower
       (JSONSaver.get_vacancies (fold_left JSONSaver.add_vacancy vs [])
                                [("text", PStr search_query)])
       filter_words salary_range top_n = Ok r ->
     r = []).
Proof.
  assert (Hnone : JSONSaver.get_vacancies (fold_left JSONSaver.add_vacancy vs [])
                    [("text", PStr search_query)] = []).
  { apply get_vacancies_missing_key; [|reflexivity].
    rewrite fold_add_vacancy. simpl.
    apply Forall_forall. intros v Hv. apply in_map_iff in Hv.
    destruct Hv as [x [<- _]]. reflexivity. }
  split; [reflexivity|]. split; [exact Hnone|].
  rewrite Hnone. apply rank_nothing.
Qed.

End Asking.

(** ** Loading pages from the server *)

Section Loading.

Variable requests_get : string -> Z -> HeadHunterAPI.response.

(** The list under ["items"], empty when the key is missing. *)
Definition items_of (r : HeadHunterAPI.response) : list dict :=
  match HeadHunterAPI.items r with
  | Some l => l
  | None => []
  end.

(** A response that lets the loop go on to the next page. *)
Definition good (r : HeadHunterAPI.response) : Prop :=
  HeadHunterAPI.status_code r = 200 /\ items_of r <> [].

(** The [k] pages from page [p] on are all good. *)
Fixpoint good_run (text : string) (p : Z) (k : nat) : Prop :=
  match k with
  | O => True
  | S k' => good (requests_get text p) /\ good_run text (p + 1) k'
  end.

(** Their items, page after page. *)
Fixpoint fetched (text : string) (p : Z) (k : nat) : list dict :=
  match k with
  | O => []
  | S k' => (items_of (requests_get text p) ++ fetched text (p + 1) k')%list
  end.

(** The pages [p], [p + 1], ... , [k] of them. *)
Fixpoint page_range (p : Z) (k : nat) : list Z :=
  match k with
  | O => []
  | S k' => p :: page_range (p + 1) k'
  end.

(** The loop as the source writes it: the test [page < 20] decides
    whether another request is made. *)
Lemma pages_while (self : HeadHunterAPI.t) (sent : list Z) :
  HeadHunterAPI.pages requests_get (Z.to_nat (20 - HeadHunterAPI.page self)) self sent
  = if HeadHunterAPI.page self <? 20 then
      let response :=
        requests_get (HeadHunterAPI.text self) (HeadHunterAPI.page self) in
      let sent' := (sent ++ [HeadHunterAPI.page self])%list in
      if negb (HeadHunterAPI.status_code response =? 200)
      then HeadHunterAPI.mk_outcome self [] sent'
      else match HeadHunterAPI.items response with
           | None | Some [] =>
               HeadHunterAPI.mk_outcome self (HeadHunterAPI.vacancies self) sent'
           | Some new =>
               HeadHunterAPI.pages requests_get
                 (Z.to_nat (20 - (HeadHunterAPI.page self + 1)))
                 (HeadHunterAPI.mk (HeadHunterAPI.text self)
                    (HeadHunterAPI.page self + 1)
                    (HeadHunterAPI.vacancies self ++ new)%list)
                 sent'
           end
    else HeadHunterAPI.mk_outcome self (HeadHunterAPI.vacancies self) sent.
Proof.
  destruct (Z.ltb_spec (HeadHunterAPI.page self) 20) as [Hlt | Hge].
  - replace (Z.to_nat (20 - HeadHunterAPI.page self))
      with (S (Z.to_nat (20 - (HeadHunterAPI.page self + 1)))) by lia.
    reflexivity.
  - replace (Z.to_nat (20 - HeadHunterAPI.page self)) with O by lia.
    reflexivity.
Qed.

Lemma pages_good (k n : nat) (self : HeadHunterAPI.t) (sent : list Z) :
  good_run (HeadHunterAPI.text self) (HeadHunterAPI.page self) k ->
  HeadHunterAPI.pages requests_get (k + n) self sent
  = HeadHunterAPI.pages requests_get n
      (HeadHunterAPI.mk (HeadHunterAPI.text self)
         (HeadHunterAPI.page self + Z.of_nat k)
         (HeadHunterAPI.vacancies self
          ++ fetched (HeadHunterAPI.text self) (HeadHunterAPI.page self) k)%list)
      (sent ++ page_range (HeadHunterAPI.page self) k)%list.
Proof.
  revert self sent. induction k as [ | k IH]; intros self sent Hrun.
  - destruct self as [text page vacancies]. simpl.
    now rewrite Z.add_0_r, !app_nil_r.
  - destruct Hrun as [[Hstatus Hitems] Hrest].
    cbn [Nat.add HeadHunterAPI.pages]. rewrite Hstatus. cbn [Z.eqb negb].
    unfold items_of in Hitems.
    destruct (HeadHunterAPI.items
                (requests_get (HeadHunterAPI.text self) (HeadHunterAPI.page self)))
      as [[ | item new] | ] eqn:Hi; try congruence.
    change (Pos.eqb 200 200) with true. cbn iota.
    rewrite IH; [|exact Hrest]. cbn [HeadHunterAPI.text HeadHunterAPI.page
                                      HeadHunterAPI.vacancies fetched page_range].
    unfold items_of. rewrite Hi.
    rewrite <- !app_assoc. cbn [app].
    replace (HeadHunterAPI.page self + 1 + Z.of_nat k)
      with (HeadHunterAPI.page self + Z.of_nat (S k)) by lia.
    reflexivity.
Qed.

Lemma page_range_snoc (p : Z) (k : nat) :
  page_range p (S k) = (page_range p k ++ [p + Z.of_nat k])%list.
Proof.
  revert p. induction k as [ | k IH]; intros p.
  - simpl. now rewrite Z.add_0_r.
  - change (page_range p (S (S k))) with (p :: page_range (p + 1) (S k)).
    rewrite IH. cbn [page_range app]. do 3 f_equal. lia.
Qed.

(** X20.  What one call does, given how many pages in a row the server answers
    well.  If that takes the loop to page 20, the call returns everything
    the object held before followed by the items of these pages.  If the
    next page comes back without items, the call returns the same and the
    object stays on that page.  If the next page comes back with a status
    other than 200, the call returns the empty list, although the object
    keeps the items of the pages before and stays on the failed page. *)
Theorem load_vacancies_run (self : HeadHunterAPI.t) (keyword : string) (k : nat) :
  good_run keyword (HeadHunterAPI.page self) k ->
  (HeadHunterAPI.page self + Z.of_nat k = 20 ->
   HeadHunterAPI.load_vacancies requests_get self keyword
   = HeadHunterAPI.mk_outcome
       (HeadHunterAPI.mk keyword 20
          (HeadHunterAPI.vacancies self
           ++ fetched keyword (HeadHunterAPI.page self) k)%list)
       (HeadHunterAPI.vacancies self ++ fetched keyword (HeadHunterAPI.page self) k)%list
       (page_range (HeadHunterAPI.page self) k)) /\
  (HeadHunterAPI.page self + Z.of_nat k < 20 ->
   HeadHunterAPI.status_code
     (requests_get keyword (HeadHunterAPI.page self + Z.of_nat k)) = 200 ->
   items_of (requests_get keyword (HeadHunterAPI.page self + Z.of_nat k)) = [] ->
   HeadHunterAPI.load_vacancies requests_get self keyword
   = HeadHunterAPI.mk_outcome
       (HeadHunterAPI.mk keyword (HeadHunterAPI.page self + Z.of_nat k)
          (HeadHunterAPI.vacancies self
           ++ fetched keyword (HeadHunterAPI.page self) k)%list)
       (HeadHunterAPI.vacancies self ++ fetched keyword (HeadHunterAPI.page self) k)%list
       (page_range (HeadHunterAPI.page self) (S k))) /\
  (HeadHunterAPI.page self + Z.of_nat k < 20 ->
   HeadHunterAPI.status_code
     (requests_get keyword (HeadHunterAPI.page self + Z.of_nat k)) <> 200 ->
   HeadHunterAPI.load_vacancies requests_get self keyword
   = HeadHunterAPI.mk_outcome
       (HeadHunterAPI.mk keyword (HeadHunterAPI.page self + Z.of_nat k)
          (HeadHunterAPI.vacancies self
           ++ fetched keyword (HeadHunterAPI.page self) k)%list)
       []
       (page_range (HeadHunterAPI.page self) (S k))).
Proof.
  intros Hrun. unfold HeadHunterAPI.load_vacancies.
  cbn [HeadHunterAPI.page HeadHunterAPI.text HeadHunterAPI.vacancies].
  split; [|split].
  - intros Hend.
    replace (Z.to_nat (20 - HeadHunterAPI.page self)) with (k + 0)%nat by lia.
    rewrite pages_good; [|exact Hrun].
    cbn [HeadHunterAPI.pages HeadHunterAPI.page HeadHunterAPI.text
           HeadHunterAPI.vacancies app].
    now rewrite Hend.
  - intros Hlt Hstatus Hitems.
    replace (Z.to_nat (20 - HeadHunterAPI.page self))
      with (k + S (Z.to_nat (19 - HeadHunterAPI.page self - Z.of_nat k)))%nat by lia.
    rewrite pages_good; [|exact Hrun].
    cbn [HeadHunterAPI.pages HeadHunterAPI.page HeadHunterAPI.text
           HeadHunterAPI.vacancies app].
    rewrite Hstatus. change (negb (200 =? 200)) with false. cbn iota.
    unfold items_of in Hitems. rewrite page_range_snoc.
    destruct (HeadHunterAPI.items _) as [[ | item new] | ];
      try discriminate Hitems; reflexivity.
  - intros Hlt Hstatus.
    replace (Z.to_nat (20 - HeadHunterAPI.page self))
      with (k + S (Z.to_nat (19 - HeadHunterAPI.page self - Z.of_nat k)))%nat by lia.
    rewrite pages_good; [|exact Hrun].
    cbn [HeadHunterAPI.pages HeadHunterAPI.page HeadHunterAPI.text
           HeadHunterAPI.vacancies app].
    apply Z.eqb_neq in Hstatus. rewrite Hstatus. cbn [negb].
    now rewrite page_range_snoc.
Qed.

Lemma pages_invariants (n : nat) (self : HeadHunterAPI.t) (sent : list Z) :
  HeadHunterAPI.text (HeadHunterAPI.self_after
                        (HeadHunterAPI.pages requests_get n self sent))
  = HeadHunterAPI.text self /\
  (exists extra,
     HeadHunterAPI.vacancies
       (HeadHunterAPI.self_after (HeadHunterAPI.pages requests_get n self sent))
     = (HeadHunterAPI.vacancies self ++ extra)%list) /\
  (HeadHunterAPI.returned (HeadHunterAPI.pages requests_get n self sent) = [] \/
   HeadHunterAPI.returned (HeadHunterAPI.pages requests_get n self sent)
   = HeadHunterAPI.vacancies
       (HeadHunterAPI.self_after (HeadHunterAPI.pages requests_get n self sent))) /\
  (exists k, (k <= n)%nat /\
     HeadHunterAPI.asked (HeadHunterAPI.pages requests_get n self sent)
     = (sent ++ page_range (HeadHunterAPI.page self) k)%list /\
     HeadHunterAPI.page self
     <= HeadHunterAPI.page
          (HeadHunterAPI.self_after (HeadHunterAPI.pages requests_get n self sent))
     <= HeadHunterAPI.page self + Z.of_nat k).
Proof.
  revert self sent. induction n as [ | n IH]; intros self sent.
  - simpl. repeat split.
    + exists []. now rewrite app_nil_r.
    + now right.
    + exists O. simpl. rewrite app_nil_r. repeat split; lia.
  - cbn [HeadHunterAPI.pages].
    assert (Hstop : forall r,
               (r = [] \/ r = HeadHunterAPI.vacancies self) ->
               exists k, (k <= S n)%nat /\
                 (sent ++ [HeadHunterAPI.page self])%list
                 = (sent ++ page_range (HeadHunterAPI.page self) k)%list /\
                 HeadHunterAPI.page self <= HeadHunterAPI.page self
                 <= HeadHunterAPI.page self + Z.of_nat k).
    { intros r _. exists 1%nat. simpl. repeat split; lia. }
    destruct (negb (HeadHunterAPI.status_code _ =? 200)).
    + simpl. repeat split.
      * exists []. now rewrite app_nil_r.
      * now left.
      * apply (Hstop []). now left.
    + destruct (HeadHunterAPI.items _) as [[ | item new] | ].
      * simpl. repeat split.
        -- exists []. now rewrite app_nil_r.
        -- now right.
        -- apply (Hstop (HeadHunterAPI.vacancies self)). now right.
      * destruct (IH (HeadHunterAPI.mk (HeadHunterAPI.text self)
                        (HeadHunterAPI.page self + 1)
                        (HeadHunterAPI.vacancies self ++ item :: new)%list)
                     (sent ++ [HeadHunterAPI.page self])%list)
          as [Htext [[extra Hextra] [Hret [k [Hk [Hasked Hpage]]]]]].
        cbn [HeadHunterAPI.text HeadHunterAPI.page HeadHunterAPI.vacancies] in *.
        repeat split.
        -- exact Htext.
        -- exists ((item :: new) ++ extra)%list. rewrite Hextra.
           now rewrite <- app_assoc.
        -- exact Hret.
        -- exists (S k). split; [lia|]. split.
           ++ rewrite Hasked. rewrite <- app_assoc. reflexivity.
           ++ lia.
      * simpl. repeat split.
        -- exists []. now rewrite app_nil_r.
        -- now right.
        -- apply (Hstop (HeadHunterAPI.vacancies self)). now right.
Qed.

(** X21.  Whatever the server answers, a call asks for consecutive pages from
    the page the object is on, none of them page 20 or beyond; it never
    moves the object back; the object only gains items; and the call
    returns either the empty list or all the items the object holds,
    those of earlier calls first. *)
Theorem load_vacancies_accumulates (self : HeadHunterAPI.t) (keyword : string) :
  HeadHunterAPI.text
    (HeadHunterAPI.self_after (HeadHunterAPI.load_vacancies requests_get self keyword))
  = keyword /\
  (exists extra,
     HeadHunterAPI.vacancies
       (HeadHunterAPI.self_after
          (HeadHunterAPI.load_vacancies requests_get self keyword))
     = (HeadHunterAPI.vacancies self ++ extra)%list) /\
  (HeadHunterAPI.returned (HeadHunterAPI.load_vacancies requests_get self keyword) = []
   \/
   HeadHunterAPI.returned (HeadHunterAPI.load_vacancies requests_get self keyword)
   = HeadHunterAPI.vacancies
       (HeadHunterAPI.self_after
          (HeadHunterAPI.load_vacancies requests_get self keyword))) /\
  (exists k,
     Z.of_nat k <= Z.max 0 (20 - HeadHunterAPI.page self) /\
     HeadHunterAPI.asked (HeadHunterAPI.load_vacancies requests_get self keyword)
     = page_range (HeadHunterAPI.page self) k) /\
  HeadHunterAPI.page self
  <= HeadHunterAPI.page
       (HeadHunterAPI.self_after
          (HeadHunterAPI.load_vacancies requests_get self keyword))
  <= Z.max (HeadHunterAPI.page self) 20.
Proof.
  unfold HeadHunterAPI.load_vacancies.
  cbn [HeadHunterAPI.page HeadHunterAPI.text HeadHunterAPI.vacancies].
  destruct (pages_invariants (Z.to_nat (20 - HeadHunterAPI.page self))
              (HeadHunterAPI.mk keyword (HeadHunterAPI.page self)
                 (HeadHunterAPI.vacancies self)) [])
    as [Htext [Hextra [Hret [k [Hk [Hasked Hpage]]]]]].
  cbn [HeadHunterAPI.page HeadHunterAPI.text HeadHunterAPI.vacancies app] in *.
  repeat split; try assumption.
  - exists k. split; [lia | exact Hasked].
  - lia.
  - lia.
Qed.

Lemma load_vacancies_to_end (self : HeadHunterAPI.t) (keyword : string) (k : nat) :
  good_run keyword (HeadHunterAPI.page self) k ->
  HeadHunterAPI.page self + Z.of_nat k = 20 ->
  HeadHunterAPI.load_vacancies requests_get self keyword
  = HeadHunterAPI.mk_outcome
      (HeadHunterAPI.mk keyword 20
         (HeadHunterAPI.vacancies self
          ++ fetched keyword (HeadHunterAPI.page self) k)%list)
      (HeadHunterAPI.vacancies self ++ fetched keyword (HeadHunterAPI.page self) k)%list
      (page_range (HeadHunterAPI.page self) k).
Proof.
  intros Hrun Hend. unfold HeadHunterAPI.load_vacancies.
  cbn [HeadHunterAPI.page HeadHunterAPI.text HeadHunterAPI.vacancies].
  replace (Z.to_nat (20 - HeadHunterAPI.page self)) with (k + 0)%nat by lia.
  rewrite pages_good; [|exact Hrun].
  cbn [HeadHunterAPI.pages HeadHunterAPI.page HeadHunterAPI.text
         HeadHunterAPI.vacancies app].
  now rewrite Hend.
Qed.

End Loading.

(** X22.  Once a call has taken the object to page 20, every later call, for
    any keyword and whatever the server would answer, asks nothing and
    returns the items of the old search. *)
Theorem load_vacancies_again_is_stale
    (first_get later_get : string -> Z -> HeadHunterAPI.response)
    (self : HeadHunterAPI.t) (keyword later_keyword : string) (k : nat) :
  good_run first_get keyword (HeadHunterAPI.page self) k ->
  HeadHunterAPI.page self + Z.of_nat k = 20 ->
  HeadHunterAPI.asked
    (HeadHunterAPI.load_vacancies later_get
       (HeadHunterAPI.self_after (HeadHunterAPI.load_vacancies first_get self keyword))
       later_keyword)
  = [] /\
  HeadHunterAPI.returned
    (HeadHunterAPI.load_vacancies later_get
       (HeadHunterAPI.self_after (HeadHunterAPI.load_vacancies first_get self keyword))
       later_keyword)
  = HeadHunterAPI.returned (HeadHunterAPI.load_vacancies first_get self keyword).
Proof.
  intros Hrun Hend.
  rewrite (load_vacancies_to_end first_get self keyword k Hrun Hend).
  split; reflexivity.
Qed.

(** A server with two pages of one item each; it has nothing on the
    third page when asked for "Python" and answers 503 there otherwise. *)
Definition two_pages (text : string) (page : Z) : HeadHunterAPI.response :=
  if page <? 2
  then HeadHunterAPI.mk_response 200 (Some [[("name", PStr text); ("page", PInt page)]])
  else if String.eqb text "Python" then HeadHunterAPI.mk_response 200 (Some [])
  else HeadHunterAPI.mk_response 503 None.

(** A server that has one item on every page. *)
Definition endless (text : string) (page : Z) : HeadHunterAPI.response :=
  HeadHunterAPI.mk_response 200 (Some [[("name", PStr text); ("page", PInt page)]]).

(** [load_vacancies_run] on a new object: the search for "Python" ends on
    the empty third page with the two items, the search for "Go" fails
    there and returns nothing, and the search on the endless server stops
    after twenty pages. *)
Lemma load_vacancies_run_witness :
  HeadHunterAPI.load_vacancies two_pages HeadHunterAPI.init "Python"
  = HeadHunterAPI.mk_outcome
      (HeadHunterAPI.mk "Python" 2
         [[("name", PStr "Python"); ("page", PInt 0)];
          [("name", PStr "Python"); ("page", PInt 1)]])
      [[("name", PStr "Python"); ("page", PInt 0)];
       [("name", PStr "Python"); ("page", PInt 1)]]
      [0; 1; 2] /\
  HeadHunterAPI.load_vacancies two_pages HeadHunterAPI.init "Go"
  = HeadHunterAPI.mk_outcome
      (HeadHunterAPI.mk "Go" 2
         [[("name", PStr "Go"); ("page", PInt 0)];
          [("name", PStr "Go"); ("page", PInt 1)]])
      []
      [0; 1; 2] /\
  List.length
    (HeadHunterAPI.returned
       (HeadHunterAPI.load_vacancies endless HeadHunterAPI.init "Python"))
  = 20%nat.
Proof.
  assert (Hpython : good_run two_pages "Python"
                      (HeadHunterAPI.page HeadHunterAPI.init) 2).
  { simpl. repeat split; discriminate. }
  assert (Hgo : good_run two_pages "Go" (HeadHunterAPI.page HeadHunterAPI.init) 2).
  { simpl. repeat split; discriminate. }
  assert (Hall : good_run endless "Python" (HeadHunterAPI.page HeadHunterAPI.init) 20).
  { simpl. repeat split; discriminate. }
  split; [|split].
  - exact (proj1 (proj2 (load_vacancies_run two_pages HeadHunterAPI.init "Python" 2
                           Hpython))
             eq_refl eq_refl eq_refl).
  - refine (proj2 (proj2 (load_vacancies_run two_pages HeadHunterAPI.init "Go" 2 Hgo))
              eq_refl _).
    discriminate.
  - rewrite (proj1 (load_vacancies_run endless HeadHunterAPI.init "Python" 20 Hall)
               eq_refl).
    reflexivity.
Defined.

(** [load_vacancies_again_is_stale] on an object that starts on page 18:
    after the search for "Python" the search for "Go" asks nothing. *)
Lemma load_vacancies_again_is_stale_witness :
  HeadHunterAPI.asked
    (HeadHunterAPI.load_vacancies two_pages
       (HeadHunterAPI.self_after
          (HeadHunterAPI.load_vacancies endless (HeadHunterAPI.mk "" 18 []) "Python"))
       "Go")
  = [] /\
  HeadHunterAPI.returned
    (HeadHunterAPI.load_vacancies two_pages
       (HeadHunterAPI.self_after
          (HeadHunterAPI.load_vacancies endless (HeadHunterAPI.mk "" 18 []) "Python"))
       "Go")
  = HeadHunterAPI.returned
      (HeadHunterAPI.load_vacancies endless (HeadHunterAPI.mk "" 18 []) "Python").
Proof.
  assert (Hrun : good_run endless "Python"
                   (HeadHunterAPI.page (HeadHunterAPI.mk "" 18 [])) 2).
  { simpl. repeat split; discriminate. }
  exact (load_vacancies_again_is_stale endless two_pages
           (HeadHunterAPI.mk "" 18 []) "Python" "Go" 2 Hrun eq_refl).
Defined.

(** ** Keywords are substrings *)

(** X23.  For any list of keywords, on entries whose descriptions are
    text (a missing description is the empty text), [filter_vacancies]
    does not fail and keeps, in order, the entries whose lowered
    description has one of the lowered keywords somewhere inside it:
    anywhere, so also in the middle of a word. *)
Theorem filter_vacancies_substring (lower : string -> string)
    (vacancies : list dict) (filter_words : list string) :
  Forall (fun vacancy => description_text vacancy <> None) vacancies ->
  user_interaction.filter_vacancies lower vacancies filter_words
  = Ok (filter (has_keyword lower filter_words) vacancies) /\
  (forall (vacancy : dict) (text : string),
     description_text vacancy = Some text ->
     (has_keyword lower filter_words vacancy = true <->
      exists word before after,
        In word filter_words /\
        lower text = before ++ lower word ++ after)).
Proof.
  intros Htext. split; [now apply filter_vacancies_keeps_matches|].
  intros vacancy text Hv. unfold has_keyword. rewrite Hv, existsb_exists.
  split.
  - intros [word [Hin Hc]]. apply str_contains_iff in Hc.
    destruct Hc as [before [after H]]. now exists word, before, after.
  - intros [word [before [after [Hin H]]]]. exists word. split; [exact Hin|].
    apply str_contains_iff. now exists before, after.
Qed.

(** [filter_vacancies_substring] at the keyword "java", which also finds
    "JavaScript". *)
Lemma filter_vacancies_substring_witness :
  user_interaction.filter_vacancies lower_ascii
    [described "a" (PInt 1) "JavaScript developer"; described "b" (PInt 2) "Go";
     [("name", PStr "c")]]
    ["java"]
  = Ok [described "a" (PInt 1) "JavaScript developer"].
Proof.
  refine (proj1 (filter_vacancies_substring lower_ascii
                   [described "a" (PInt 1) "JavaScript developer";
                    described "b" (PInt 2) "Go"; [("name", PStr "c")]]
                   ["java"] _)).
  repeat (constructor; [discriminate|]). constructor.
Defined.
